(** * omega_format: perception objects, their timespan cut and their HDF5 mapping

    A shallow embedding of [omega_format/perception/object.py] and
    [omega_format/settings.py].  A Python method that mutates [self] is a
    state transformer on the record it mutates; an exception stops the method
    and leaves the state as it was when it was raised.  The store is a tree
    of named groups, datasets and attributes that reads back what was
    written.  [ValVar] and the enumerations of [PerceptionTypes], whose
    modules are not among the sources, are modelled from the specification. *)

From Stdlib Require Import ZArith Lia Bool Ascii.
From Stdlib Require Import Floats.PrimFloat.
From stdpp Require Import base option list strings gmap.

Local Open Scope Z_scope.

(** ** Python: exceptions, in-place mutation, sequences *)

Module Py.

Inductive exn : Type :=
| AssertionError
| AttributeError
| KeyError
| TypeError
| ValueError
| ValidationError.

Inductive outcome (A : Type) : Type :=
| Returned (a : A)
| Raised (e : exn).
Arguments Returned {A} a.
Arguments Raised {A} e.

(** A statement block run against a mutable state [S]: the state it leaves
    and what it returned or raised. *)
Definition Exec (S A : Type) : Type := S -> S * outcome A.

Definition ret {S A} (a : A) : Exec S A := fun s => (s, Returned a).

Definition bind {S A B} (m : Exec S A) (k : A -> Exec S B) : Exec S B :=
  fun s =>
    match m s with
    | (s', Returned a) => k a s'
    | (s', Raised e) => (s', Raised e)
    end.

Definition raise {S A} (e : exn) : Exec S A := fun s => (s, Raised e).
Definition get {S} : Exec S S := fun s => (s, Returned s).
Definition modify {S} (f : S -> S) : Exec S unit := fun s => (f s, Returned tt).

(** [assert c], with assertions enabled. *)
Definition assert {S} (c : bool) : Exec S unit :=
  if c then ret tt else raise AssertionError.

(** Running a block on the object held by one attribute of [self]. *)
Definition on_attr {S A R} (getter : S -> A) (setter : A -> S -> S)
    (m : Exec A R) : Exec S R :=
  fun s => let '(a, r) := m (getter s) in (setter a s, r).

(** [for x in xs: body(x)] *)
Fixpoint for_each {S X} (xs : list X) (body : X -> Exec S unit) : Exec S unit :=
  match xs with
  | [] => ret tt
  | x :: rest => bind (body x) (fun _ => for_each rest body)
  end.

Definition state {S A} (r : S * outcome A) : S := fst r.
Definition result {S A} (r : S * outcome A) : outcome A := snd r.

Definition len {A} (l : list A) : Z := Z.of_nat (length l).

(** Python's normalisation of one slice bound against a length. *)
Definition slice_bound (n i : Z) : Z :=
  if i <? 0 then Z.max 0 (i + n) else Z.min i n.

(** [l[start:stop]] *)
Definition slice {A} (l : list A) (start stop : Z) : list A :=
  let lo := slice_bound (len l) start in
  let hi := slice_bound (len l) stop in
  take (Z.to_nat (hi - lo)) (drop (Z.to_nat lo) l).

(** [for x in xs] collecting [f(x)]: [list(map(f, xs))] *)
Fixpoint map_each {S X Y} (f : X -> Exec S Y) (xs : list X) : Exec S (list Y) :=
  match xs with
  | [] => ret []
  | x :: rest => bind (f x) (fun y => bind (map_each f rest) (fun ys => ret (y :: ys)))
  end.

(** [s.rpartition(sep)[-1]]: what follows the last [sep] in [s], and [s]
    itself when [sep] does not occur. *)
Fixpoint occurs (sep : Ascii.ascii) (s : string) : bool :=
  match s with
  | EmptyString => false
  | String c s' => if Ascii.eqb c sep then true else occurs sep s'
  end.

Fixpoint rpartition_last (sep : Ascii.ascii) (s : string) : string :=
  match s with
  | EmptyString => EmptyString
  | String c s' =>
      if occurs sep s' then rpartition_last sep s'
      else if Ascii.eqb c sep then s' else s
  end.

(** The [warnings] channel: the state of the blocks that construct records. *)
Inductive Warning : Type := UserWarning (message : string).
Definition Log : Type := list Warning.
Definition warn (message : string) : Exec Log unit :=
  modify (fun log => log ++ [UserWarning message]).

End Py.

Import Py.

Declare Scope exec_scope.
Delimit Scope exec_scope with exec.
Notation "x <- m ;; k" := (bind m (fun x => k))
  (at level 100, m at next level, right associativity) : exec_scope.
Notation "m ;; k" := (bind m (fun _ => k))
  (at level 100, right associativity) : exec_scope.
Local Open Scope exec_scope.

(** ** enums.py *)

(** Modelled from the spec: the enumerations of [PerceptionTypes], whose
    module is not among the sources.  A member is held by its integer value,
    as it is stored, and each enumeration is given by the test that tells
    which integers are values of its members. *)
Class PerceptionTypes : Type := {
  ObjectClassification_member : Z -> bool;
  TrackingPoint_member : Z -> bool;
  MovementClassification_member : Z -> bool;
  MeasState_member : Z -> bool
}.

(** [E(v)] for an enumeration [E]: the member of value [v], or ValueError. *)
Definition Enum {S} (member : Z -> bool) (v : Z) : Exec S Z :=
  if member v then ret v else raise ValueError.

(** ** settings.py *)

Module Settings.

(** The Python values an attribute of the settings may hold. *)
#[warnings="-register-all"]
Inductive value : Type :=
| None_
| Bool (b : bool)
| Int (z : Z)
| Str (s : string)
| Dict (items : list (string * value)).

Definition is_not_None (v : value) : bool :=
  match v with None_ => false | _ => true end.

(** The instance dictionary of a [Settings] object. *)
Abbreviation t := (gmap string value).

Definition fields : list string :=
  ["ALLOW_MISSING_TL_GROUPS"; "ALLOW_INCOMPLETE_META_DATA"].

(** [Settings()] with no override and no environment variable set. *)
Definition default : t :=
  <["ALLOW_MISSING_TL_GROUPS" := Bool true]>
    (<["ALLOW_INCOMPLETE_META_DATA" := Bool true]> ∅).

(** The names that pydantic's [__setattr__] hands to [object.__setattr__]
    before it looks at the fields. *)
Definition DUNDER_ATTRIBUTES : list string :=
  ["__annotations__"; "__classcell__"; "__doc__"; "__module__"; "__orig_bases__";
   "__orig_class__"; "__qualname__"].

(** [setattr(settings, name, v)] on a pydantic settings object, which has no
    private attribute: a name of [DUNDER_ATTRIBUTES] is set as on any
    object, and enters the instance dictionary; of the other names only a
    declared field can be assigned.  The value is stored as given. *)
Definition setattr (name : string) (v : value) : Exec t unit :=
  if bool_decide (name ∈ DUNDER_ATTRIBUTES) then modify (insert name v)
  else if bool_decide (name ∈ fields) then modify (insert name v)
  else raise ValueError.

(** [settings.name], for a name the class does not define. *)
Definition getattr {S} (self : t) (name : string) : Exec S value :=
  match self !! name with
  | Some v => ret v
  | None => raise AttributeError
  end.

End Settings.

Module SettingsGetter.

Record t : Type := mk { settings : Settings.t }.

Definition set_settings (v : Settings.t) (self : t) : t := mk v.

(** [set]: [kwargs] holds the items of the keyword dictionary, in order. *)
Definition set (kwargs : list (string * Settings.value)) : Exec t unit :=
  for_each kwargs (fun '(k, v) =>
    if Settings.is_not_None v
    then on_attr settings set_settings (Settings.setattr k v)
    else ret tt).

(** [__call__] *)
Definition call (self : t) : Settings.t := settings self.

End SettingsGetter.

(** [get_settings().hdf5_compress_args], ready to be unpacked with [**]. *)
Definition hdf5_compress_args {S} (get_settings : SettingsGetter.t)
    : Exec S (list (string * Settings.value)) :=
  v <- Settings.getattr (SettingsGetter.call get_settings) "hdf5_compress_args" ;;
  match v with
  | Settings.Dict items => ret items
  | _ => raise TypeError
  end.

(** ** The hierarchical store (h5py) *)

Module h5py.

(** The content of a dataset, with its element type. *)
Inductive Data : Type :=
| Floats (l : list float)
| Ints (l : list Z).

#[warnings="-register-all"]
Inductive Node : Type :=
| Dataset (data : Data)
| Subgroup (attrs : gmap string Z) (members : gmap string Node).

(** A group of an open file: its absolute name and what it holds. *)
Record Group : Type := mk {
  name : string;
  attrs : gmap string Z;
  members : gmap string Node
}.

Definition set_attrs (v : gmap string Z) (g : Group) : Group :=
  mk (name g) v (members g).
Definition set_members (v : gmap string Node) (g : Group) : Group :=
  mk (name g) (attrs g) v.

Definition child_name (parent k : string) : string :=
  if String.eqb parent "/" then "/" +:+ k else parent +:+ "/" +:+ k.

(** [fill(group.create_group(k))]: a new empty group under [k], written by
    [fill]; a name already in use is refused. *)
Definition create_group (k : string) (fill : Exec Group unit) : Exec Group unit :=
  fun g =>
    match members g !! k with
    | Some _ => (g, Raised ValueError)
    | None =>
        let '(child, r) := fill (mk (child_name (name g) k) ∅ ∅) in
        (set_members (<[k := Subgroup (attrs child) (members child)]> (members g)) g, r)
    end.

(** [group.create_dataset(k, data=data, **kwargs)]: the storage options
    [kwargs] do not change what is read back. *)
Definition create_dataset (k : string) (data : Data)
    (kwargs : list (string * Settings.value)) : Exec Group unit :=
  g <- get ;;
  match members g !! k with
  | Some _ => raise ValueError
  | None => modify (set_members (<[k := Dataset data]> (members g)))
  end.

(** [group.attrs.create(k, data=v)] *)
Definition attrs_create (k : string) (v : Z) : Exec Group unit :=
  modify (fun g => set_attrs (<[k := v]> (attrs g)) g).

(** [group.attrs[k]] *)
Definition attrs_getitem {S} (g : Group) (k : string) : Exec S Z :=
  match attrs g !! k with
  | Some v => ret v
  | None => raise KeyError
  end.

(** [group[k]], for a member that is read as a group. *)
Definition getitem {S} (g : Group) (k : string) : Exec S Group :=
  match members g !! k with
  | Some (Subgroup a m) => ret (mk (child_name (name g) k) a m)
  | Some (Dataset _) => raise TypeError
  | None => raise KeyError
  end.

(** [group[k][()]], for a dataset of floats.  A dataset is read back at the
    element type it was created with; another element type is refused. *)
Definition read_floats {S} (g : Group) (k : string) : Exec S (list float) :=
  match members g !! k with
  | Some (Dataset (Floats l)) => ret l
  | Some _ => raise TypeError
  | None => raise KeyError
  end.

(** [group[k][()].tolist()], for a dataset of integers. *)
Definition read_ints {S} (g : Group) (k : string) : Exec S (list Z) :=
  match members g !! k with
  | Some (Dataset (Ints l)) => ret l
  | Some _ => raise TypeError
  | None => raise KeyError
  end.

End h5py.

(** A numpy array of float64 values. *)
Abbreviation ndarray := (list float) (only parsing).

(** [a.astype(int)] on an integer [a] read from the store: the cast to a
    signed integer of 64 bits, which wraps around. *)
Definition astype_int (a : Z) : Z := (a + 2 ^ 63) mod 2 ^ 64 - 2 ^ 63.

(** ** valvar.py *)

Module ValVar.

(** Modelled from the spec: [ValVar], whose module is not among the sources:
    a value/validity pair, one sample of each per local time step.
    [Object.len] reads the attribute [val]. *)
Record t : Type := mk { val : ndarray; var : ndarray }.

(** Modelled from the spec: [ValVar()], the pair without samples. *)
Definition default : t := mk [] [].

(** Modelled from the spec: [ValVar.cut_to_timespan(birth, death)], the cut
    with inclusive end of both series. *)
Definition cut_to_timespan (birth death : Z) : Exec t unit :=
  modify (fun self => mk (slice (val self) birth (death + 1))
                         (slice (var self) birth (death + 1))).

(** Modelled from the spec: [ValVar.to_hdf5(group)], the save of the leaf
    type: the two series as two datasets of the node. *)
Definition to_hdf5 (self : t) : Exec h5py.Group unit :=
  h5py.create_dataset "val" (h5py.Floats (val self)) [] ;;
  h5py.create_dataset "var" (h5py.Floats (var self)) [].

(** Modelled from the spec: [ValVar.from_hdf5(group, validate)], the load
    of the leaf type. *)
Definition from_hdf5 (group : h5py.Group) (validate : bool) : Exec Log t :=
  val <- h5py.read_floats group "val" ;;
  var <- h5py.read_floats group "var" ;;
  ret (mk val var).

End ValVar.

(** ** object.py: ObjectClassification *)

Module ObjectClassification.

(** [val] holds members of [PerceptionTypes.ObjectClassification], each by
    its integer value. *)
Record t : Type := mk { val : list Z; confidence : ndarray }.

Definition default : t := mk [] [].

(** [self.val = v] and [self.confidence = v]: an assignment stores the value
    as it is given. *)
Definition set_val (v : list Z) (self : t) : t := mk v (confidence self).
Definition set_confidence (v : ndarray) (self : t) : t := mk (val self) v.

(** [np.all(np.logical_and(0<=v, v<=1))] *)
Definition all_between_0_and_1 (v : ndarray) : bool :=
  forallb (fun x => PrimFloat.leb 0 x && PrimFloat.leb x 1) v.

Definition check_confidence_values (v : ndarray) : Exec Log ndarray :=
  assert ((len v =? 0) || all_between_0_and_1 v) ;;
  ret v.

Definition length_warning : string :=
  "length of confidence array does not match array length for classification. This is only possible if confidence is of type not_provided".

(** [values_val] is [values.get('val')], the labels already validated. *)
Definition check_array_length (v : ndarray) (values_val : list Z) : Exec Log ndarray :=
  (if negb (len v =? len values_val) then warn length_warning else ret tt) ;;
  ret v.

(** A validator that raises makes the construction fail with a
    ValidationError. *)
Definition validator {A} (m : Exec Log A) : Exec Log A :=
  fun log =>
    match m log with
    | (log', Raised _) => (log', Raised ValidationError)
    | r => r
    end.

(** [ObjectClassification(val=val, confidence=confidence)]: the fields are
    validated in the order they are declared and the validators of
    [confidence] in the order they are defined, the second only when the
    first has passed.  When [val] is refused there is no label sequence for
    [check_array_length] to measure, and it raises before it can warn. *)
Definition init `{PerceptionTypes} (val : list Z) (confidence : ndarray) : Exec Log t :=
  if forallb ObjectClassification_member val then
    v <- validator (check_confidence_values confidence) ;;
    v <- validator (check_array_length v val) ;;
    ret (mk val v)
  else
    raise ValidationError.

(** [ObjectClassification(...)] in general: a keyword that is left out is
    [None] here.  The field takes its default, the empty list or the empty
    array, and the validators of [confidence], which are not declared with
    [always=True], run only when [confidence] is given. *)
Definition init_kwargs `{PerceptionTypes} (val : option (list Z))
    (confidence : option ndarray) : Exec Log t :=
  let labels := match val with Some l => l | None => [] end in
  match confidence with
  | Some v => init labels v
  | None =>
      if forallb ObjectClassification_member labels then ret (mk labels [])
      else raise ValidationError
  end.

(** [ObjectClassification.construct(val=val, confidence=confidence)] *)
Definition construct (val : list Z) (confidence : ndarray) : Exec Log t :=
  ret (mk val confidence).

Definition from_hdf5 `{PerceptionTypes} (group : h5py.Group) (validate : bool)
    : Exec Log t :=
  let func := if validate then init else construct in
  codes <- h5py.read_ints group "val" ;;
  val <- map_each (Enum ObjectClassification_member) codes ;;
  confidence <- h5py.read_floats group "confidence" ;;
  func val confidence.

Definition to_hdf5 (get_settings : SettingsGetter.t) (self : t)
    : Exec h5py.Group unit :=
  kwargs <- hdf5_compress_args get_settings ;;
  h5py.create_dataset "val" (h5py.Ints (val self)) kwargs ;;
  kwargs <- hdf5_compress_args get_settings ;;
  h5py.create_dataset "confidence" (h5py.Floats (confidence self)) kwargs.

Definition cut_to_timespan (birth death : Z) : Exec t unit :=
  assert (birth >=? 0) ;;
  assert (birth <=? death) ;;
  self <- get ;;
  (if len (val self) >? 0 then
     assert (len (val self) >? birth) ;;
     assert (len (val self) >? death) ;;
     modify (set_val (slice (val self) birth (death + 1)))
   else ret tt) ;;
  self <- get ;;
  (if len (confidence self) >? 0 then
     assert (len (confidence self) >? birth) ;;
     assert (len (confidence self) >? death) ;;
     modify (set_confidence (slice (confidence self) birth (death + 1)))
   else ret tt).

End ObjectClassification.

(** ** object.py: Object *)

(** The body of the loop of [Object.cut_to_timespan] for one attribute value,
    chosen by the class of the value: a [ValVar] or an [ObjectClassification]
    is cut by its own method, an array or a list is replaced by its slice, and
    any other value is passed over. *)
Class Attribute (A : Type) : Type := cut_attribute : Z -> Z -> Exec A unit.

#[export] Instance str_attribute : Attribute string := fun _ _ => ret tt.
#[export] Instance int_attribute : Attribute Z := fun _ _ => ret tt.
#[export] Instance ValVar_attribute : Attribute ValVar.t := ValVar.cut_to_timespan.
#[export] Instance ObjectClassification_attribute : Attribute ObjectClassification.t :=
  ObjectClassification.cut_to_timespan.
#[export] Instance sequence_attribute {A} : Attribute (list A) :=
  fun birth death => modify (fun v => slice v birth (death + 1)).

Module Object.

Record t : Type := mk {
  id : string;
  birth_stamp : Z;
  heading : ValVar.t;
  width : ValVar.t;
  height : ValVar.t;
  length : ValVar.t;
  rcs : ndarray;
  age : ndarray;
  tracking_point : list Z;
  confidence_of_existence : ndarray;
  movement_classification : list Z;
  meas_state : list Z;
  dist_longitudinal : ValVar.t;
  dist_lateral : ValVar.t;
  dist_z : ValVar.t;
  rel_vel_longitudinal : ValVar.t;
  rel_vel_lateral : ValVar.t;
  abs_vel_longitudinal : ValVar.t;
  abs_vel_lateral : ValVar.t;
  rel_acc_longitudinal : ValVar.t;
  rel_acc_lateral : ValVar.t;
  abs_acc_longitudinal : ValVar.t;
  abs_acc_lateral : ValVar.t;
  object_classification : ObjectClassification.t
}.

(** [setattr(self, name, v)], one function per attribute. *)
Definition set_id (v : string) (self : t) : t :=
  mk v (birth_stamp self) (heading self) (width self) (height self) (length self) (rcs self)
    (age self) (tracking_point self) (confidence_of_existence self)
    (movement_classification self) (meas_state self) (dist_longitudinal self)
    (dist_lateral self) (dist_z self) (rel_vel_longitudinal self) (rel_vel_lateral self)
    (abs_vel_longitudinal self) (abs_vel_lateral self) (rel_acc_longitudinal self)
    (rel_acc_lateral self) (abs_acc_longitudinal self) (abs_acc_lateral self)
    (object_classification self).
Definition set_birth_stamp (v : Z) (self : t) : t :=
  mk (id self) v (heading self) (width self) (height self) (length self) (rcs self) (age self)
    (tracking_point self) (confidence_of_existence self) (movement_classification self)
    (meas_state self) (dist_longitudinal self) (dist_lateral self) (dist_z self)
    (rel_vel_longitudinal self) (rel_vel_lateral self) (abs_vel_longitudinal self)
    (abs_vel_lateral self) (rel_acc_longitudinal self) (rel_acc_lateral self)
    (abs_acc_longitudinal self) (abs_acc_lateral self) (object_classification self).
Definition set_heading (v : ValVar.t) (self : t) : t :=
  mk (id self) (birth_stamp self) v (width self) (height self) (length self) (rcs self)
    (age self) (tracking_point self) (confidence_of_existence self)
    (movement_classification self) (meas_state self) (dist_longitudinal self)
    (dist_lateral self) (dist_z self) (rel_vel_longitudinal self) (rel_vel_lateral self)
    (abs_vel_longitudinal self) (abs_vel_lateral self) (rel_acc_longitudinal self)
    (rel_acc_lateral self) (abs_acc_longitudinal self) (abs_acc_lateral self)
    (object_classification self).
Definition set_width (v : ValVar.t) (self : t) : t :=
  mk (id self) (birth_stamp self) (heading self) v (height self) (length self) (rcs self)
    (age self) (tracking_point self) (confidence_of_existence self)
    (movement_classification self) (meas_state self) (dist_longitudinal self)
    (dist_lateral self) (dist_z self) (rel_vel_longitudinal self) (rel_vel_lateral self)
    (abs_vel_longitudinal self) (abs_vel_lateral self) (rel_acc_longitudinal self)
    (rel_acc_lateral self) (abs_acc_longitudinal self) (abs_acc_lateral self)
    (object_classification self).
Definition set_height (v : ValVar.t) (self : t) : t :=
  mk (id self) (birth_stamp self) (heading self) (width self) v (length self) (rcs self)
    (age self) (tracking_point self) (confidence_of_existence self)
    (movement_classification self) (meas_state self) (dist_longitudinal self)
    (dist_lateral self) (dist_z self) (rel_vel_longitudinal self) (rel_vel_lateral self)
    (abs_vel_longitudinal self) (abs_vel_lateral self) (rel_acc_longitudinal self)
    (rel_acc_lateral self) (abs_acc_longitudinal self) (abs_acc_lateral self)
    (object_classification self).
Definition set_length (v : ValVar.t) (self : t) : t :=
  mk (id self) (birth_stamp self) (heading self) (width self) (height self) v (rcs self)
    (age self) (tracking_point self) (confidence_of_existence self)
    (movement_classification self) (meas_state self) (dist_longitudinal self)
    (dist_lateral self) (dist_z self) (rel_vel_longitudinal self) (rel_vel_lateral self)
    (abs_vel_longitudinal self) (abs_vel_lateral self) (rel_acc_longitudinal self)
    (rel_acc_lateral self) (abs_acc_longitudinal self) (abs_acc_lateral self)
    (object_classification self).
Definition set_rcs (v : ndarray) (self : t) : t :=
  mk (id self) (birth_stamp self) (heading self) (width self) (height self) (length self) v
    (age self) (tracking_point self) (confidence_of_existence self)
    (movement_classification self) (meas_state self) (dist_longitudinal self)
    (dist_lateral self) (dist_z self) (rel_vel_longitudinal self) (rel_vel_lateral self)
    (abs_vel_longitudinal self) (abs_vel_lateral self) (rel_acc_longitudinal self)
    (rel_acc_lateral self) (abs_acc_longitudinal self) (abs_acc_lateral self)
    (object_classification self).
Definition set_age (v : ndarray) (self : t) : t :=
  mk (id self) (birth_stamp self) (heading self) (width self) (height self) (length self)
    (rcs self) v (tracking_point self) (confidence_of_existence self)
    (movement_classification self) (meas_state self) (dist_longitudinal self)
    (dist_lateral self) (dist_z self) (rel_vel_longitudinal self) (rel_vel_lateral self)
    (abs_vel_longitudinal self) (abs_vel_lateral self) (rel_acc_longitudinal self)
    (rel_acc_lateral self) (abs_acc_longitudinal self) (abs_acc_lateral self)
    (object_classification self).
Definition set_tracking_point (v : list Z) (self : t) : t :=
  mk (id self) (birth_stamp self) (heading self) (width self) (height self) (length self)
    (rcs self) (age self) v (confidence_of_existence self) (movement_classification self)
    (meas_state self) (dist_longitudinal self) (dist_lateral self) (dist_z self)
    (rel_vel_longitudinal self) (rel_vel_lateral self) (abs_vel_longitudinal self)
    (abs_vel_lateral self) (rel_acc_longitudinal self) (rel_acc_lateral self)
    (abs_acc_longitudinal self) (abs_acc_lateral self) (object_classification self).
Definition set_confidence_of_existence (v : ndarray) (self : t) : t :=
  mk (id self) (birth_stamp self) (heading self) (width self) (height self) (length self)
    (rcs self) (age self) (tracking_point self) v (movement_classification self)
    (meas_state self) (dist_longitudinal self) (dist_lateral self) (dist_z self)
    (rel_vel_longitudinal self) (rel_vel_lateral self) (abs_vel_longitudinal self)
    (abs_vel_lateral self) (rel_acc_longitudinal self) (rel_acc_lateral self)
    (abs_acc_longitudinal self) (abs_acc_lateral self) (object_classification self).
Definition set_movement_classification (v : list Z) (self : t) : t :=
  mk (id self) (birth_stamp self) (heading self) (width self) (height self) (length self)
    (rcs self) (age self) (tracking_point self) (confidence_of_existence self) v
    (meas_state self) (dist_longitudinal self) (dist_lateral self) (dist_z self)
    (rel_vel_longitudinal self) (rel_vel_lateral self) (abs_vel_longitudinal self)
    (abs_vel_lateral self) (rel_acc_longitudinal self) (rel_acc_lateral self)
    (abs_acc_longitudinal self) (abs_acc_lateral self) (object_classification self).
Definition set_meas_state (v : list Z) (self : t) : t :=
  mk (id self) (birth_stamp self) (heading self) (width self) (height self) (length self)
    (rcs self) (age self) (tracking_point self) (confidence_of_existence self)
    (movement_classification self) v (dist_longitudinal self) (dist_lateral self)
    (dist_z self) (rel_vel_longitudinal self) (rel_vel_lateral self)
    (abs_vel_longitudinal self) (abs_vel_lateral self) (rel_acc_longitudinal self)
    (rel_acc_lateral self) (abs_acc_longitudinal self) (abs_acc_lateral self)
    (object_classification self).
Definition set_dist_longitudinal (v : ValVar.t) (self : t) : t :=
  mk (id self) (birth_stamp self) (heading self) (width self) (height self) (length self)
    (rcs self) (age self) (tracking_point self) (confidence_of_existence self)
    (movement_classification self) (meas_state self) v (dist_lateral self) (dist_z self)
    (rel_vel_longitudinal self) (rel_vel_lateral self) (abs_vel_longitudinal self)
    (abs_vel_lateral self) (rel_acc_longitudinal self) (rel_acc_lateral self)
    (abs_acc_longitudinal self) (abs_acc_lateral self) (object_classification self).
Definition set_dist_lateral (v : ValVar.t) (self : t) : t :=
  mk (id self) (birth_stamp self) (heading self) (width self) (height self) (length self)
    (rcs self) (age self) (tracking_point self) (confidence_of_existence self)
    (movement_classification self) (meas_state self) (dist_longitudinal self) v (dist_z self)
    (rel_vel_longitudinal self) (rel_vel_lateral self) (abs_vel_longitudinal self)
    (abs_vel_lateral self) (rel_acc_longitudinal self) (rel_acc_lateral self)
    (abs_acc_longitudinal self) (abs_acc_lateral self) (object_classification self).
Definition set_dist_z (v : ValVar.t) (self : t) : t :=
  mk (id self) (birth_stamp self) (heading self) (width self) (height self) (length self)
    (rcs self) (age self) (tracking_point self) (confidence_of_existence self)
    (movement_classification self) (meas_state self) (dist_longitudinal self)
    (dist_lateral self) v (rel_vel_longitudinal self) (rel_vel_lateral self)
    (abs_vel_longitudinal self) (abs_vel_lateral self) (rel_acc_longitudinal self)
    (rel_acc_lateral self) (abs_acc_longitudinal self) (abs_acc_lateral self)
    (object_classification self).
Definition set_rel_vel_longitudinal (v : ValVar.t) (self : t) : t :=
  mk (id self) (birth_stamp self) (heading self) (width self) (height self) (length self)
    (rcs self) (age self) (tracking_point self) (confidence_of_existence self)
    (movement_classification self) (meas_state self) (dist_longitudinal self)
    (dist_lateral self) (dist_z self) v (rel_vel_lateral self) (abs_vel_longitudinal self)
    (abs_vel_lateral self) (rel_acc_longitudinal self) (rel_acc_lateral self)
    (abs_acc_longitudinal self) (abs_acc_lateral self) (object_classification self).
Definition set_rel_vel_lateral (v : ValVar.t) (self : t) : t :=
  mk (id self) (birth_stamp self) (heading self) (width self) (height self) (length self)
    (rcs self) (age self) (tracking_point self) (confidence_of_existence self)
    (movement_classification self) (meas_state self) (dist_longitudinal self)
    (dist_lateral self) (dist_z self) (rel_vel_longitudinal self) v
    (abs_vel_longitudinal self) (abs_vel_lateral self) (rel_acc_longitudinal self)
    (rel_acc_lateral self) (abs_acc_longitudinal self) (abs_acc_lateral self)
    (object_classification self).
Definition set_abs_vel_longitudinal (v : ValVar.t) (self : t) : t :=
  mk (id self) (birth_stamp self) (heading self) (width self) (height self) (length self)
    (rcs self) (age self) (tracking_point self) (confidence_of_existence self)
    (movement_classification self) (meas_state self) (dist_longitudinal self)
    (dist_lateral self) (dist_z self) (rel_vel_longitudinal self) (rel_vel_lateral self) v
    (abs_vel_lateral self) (rel_acc_longitudinal self) (rel_acc_lateral self)
    (abs_acc_longitudinal self) (abs_acc_lateral self) (object_classification self).
Definition set_abs_vel_lateral (v : ValVar.t) (self : t) : t :=
  mk (id self) (birth_stamp self) (heading self) (width self) (height self) (length self)
    (rcs self) (age self) (tracking_point self) (confidence_of_existence self)
    (movement_classification self) (meas_state self) (dist_longitudinal self)
    (dist_lateral self) (dist_z self) (rel_vel_longitudinal self) (rel_vel_lateral self)
    (abs_vel_longitudinal self) v (rel_acc_longitudinal self) (rel_acc_lateral self)
    (abs_acc_longitudinal self) (abs_acc_lateral self) (object_classification self).
Definition set_rel_acc_longitudinal (v : ValVar.t) (self : t) : t :=
  mk (id self) (birth_stamp self) (heading self) (width self) (height self) (length self)
    (rcs self) (age self) (tracking_point self) (confidence_of_existence self)
    (movement_classification self) (meas_state self) (dist_longitudinal self)
    (dist_lateral self) (dist_z self) (rel_vel_longitudinal self) (rel_vel_lateral self)
    (abs_vel_longitudinal self) (abs_vel_lateral self) v (rel_acc_lateral self)
    (abs_acc_longitudinal self) (abs_acc_lateral self) (object_classification self).
Definition set_rel_acc_lateral (v : ValVar.t) (self : t) : t :=
  mk (id self) (birth_stamp self) (heading self) (width self) (height self) (length self)
    (rcs self) (age self) (tracking_point self) (confidence_of_existence self)
    (movement_classification self) (meas_state self) (dist_longitudinal self)
    (dist_lateral self) (dist_z self) (rel_vel_longitudinal self) (rel_vel_lateral self)
    (abs_vel_longitudinal self) (abs_vel_lateral self) (rel_acc_longitudinal self) v
    (abs_acc_longitudinal self) (abs_acc_lateral self) (object_classification self).
Definition set_abs_acc_longitudinal (v : ValVar.t) (self : t) : t :=
  mk (id self) (birth_stamp self) (heading self) (width self) (height self) (length self)
    (rcs self) (age self) (tracking_point self) (confidence_of_existence self)
    (movement_classification self) (meas_state self) (dist_longitudinal self)
    (dist_lateral self) (dist_z self) (rel_vel_longitudinal self) (rel_vel_lateral self)
    (abs_vel_longitudinal self) (abs_vel_lateral self) (rel_acc_longitudinal self)
    (rel_acc_lateral self) v (abs_acc_lateral self) (object_classification self).
Definition set_abs_acc_lateral (v : ValVar.t) (self : t) : t :=
  mk (id self) (birth_stamp self) (heading self) (width self) (height self) (length self)
    (rcs self) (age self) (tracking_point self) (confidence_of_existence self)
    (movement_classification self) (meas_state self) (dist_longitudinal self)
    (dist_lateral self) (dist_z self) (rel_vel_longitudinal self) (rel_vel_lateral self)
    (abs_vel_longitudinal self) (abs_vel_lateral self) (rel_acc_longitudinal self)
    (rel_acc_lateral self) (abs_acc_longitudinal self) v (object_classification self).
Definition set_object_classification (v : ObjectClassification.t) (self : t) : t :=
  mk (id self) (birth_stamp self) (heading self) (width self) (height self) (length self)
    (rcs self) (age self) (tracking_point self) (confidence_of_existence self)
    (movement_classification self) (meas_state self) (dist_longitudinal self)
    (dist_lateral self) (dist_z self) (rel_vel_longitudinal self) (rel_vel_lateral self)
    (abs_vel_longitudinal self) (abs_vel_lateral self) (rel_acc_longitudinal self)
    (rel_acc_lateral self) (abs_acc_longitudinal self) (abs_acc_lateral self) v.

Definition default : t :=
  mk "RU-1" 0 ValVar.default ValVar.default ValVar.default ValVar.default
    [] [] [] [] [] []
    ValVar.default ValVar.default ValVar.default ValVar.default ValVar.default ValVar.default
    ValVar.default ValVar.default ValVar.default ValVar.default ValVar.default
    ObjectClassification.default.

Definition len (self : t) : Z := Py.len (ValVar.val (dist_lateral self)).

Definition end_ (self : t) : Z := birth_stamp self + len self.

Definition in_timespan (obj : t) (birth death : Z) : bool :=
  (birth <? birth_stamp obj + Py.len (ValVar.val (dist_lateral obj)))
  && (death >=? birth_stamp obj).

(** One item of [vars(self).items()]: the loop body on that attribute. *)
Definition item {A} `{Attribute A} (getter : t -> A) (setter : A -> t -> t)
    (birth death : Z) : Exec t unit :=
  on_attr getter setter (cut_attribute birth death).

(** [vars(self).items()], in the order the attributes are declared. *)
Definition vars : list (Z -> Z -> Exec t unit) :=
  [ item id set_id;
    item birth_stamp set_birth_stamp;
    item heading set_heading;
    item width set_width;
    item height set_height;
    item length set_length;
    item rcs set_rcs;
    item age set_age;
    item tracking_point set_tracking_point;
    item confidence_of_existence set_confidence_of_existence;
    item movement_classification set_movement_classification;
    item meas_state set_meas_state;
    item dist_longitudinal set_dist_longitudinal;
    item dist_lateral set_dist_lateral;
    item dist_z set_dist_z;
    item rel_vel_longitudinal set_rel_vel_longitudinal;
    item rel_vel_lateral set_rel_vel_lateral;
    item abs_vel_longitudinal set_abs_vel_longitudinal;
    item abs_vel_lateral set_abs_vel_lateral;
    item rel_acc_longitudinal set_rel_acc_longitudinal;
    item rel_acc_lateral set_rel_acc_lateral;
    item abs_acc_longitudinal set_abs_acc_longitudinal;
    item abs_acc_lateral set_abs_acc_lateral;
    item object_classification set_object_classification ].

Definition cut_to_timespan (birth death : Z) : Exec t unit :=
  assert (birth >=? 0) ;;
  assert (birth <=? death) ;;
  self <- get ;;
  assert (len self >? death) ;;
  modify (fun self => set_birth_stamp (birth_stamp self + birth) self) ;;
  for_each vars (fun cut => cut birth death).

(** [Object(...)] called with the keyword values held by [values]: the
    sequences of enumeration members are validated member by member; arrays,
    [ValVar]s and the classification are taken as they are given. *)
Definition init `{PerceptionTypes} (values : t) : Exec Log t :=
  if forallb TrackingPoint_member (tracking_point values)
     && forallb MovementClassification_member (movement_classification values)
     && forallb MeasState_member (meas_state values)
  then ret values
  else raise ValidationError.

(** [Object.construct(...)] *)
Definition construct (values : t) : Exec Log t := ret values.

(** The keyword arguments are evaluated in the order they are written, then
    [func] is called; [birthStamp] is read as the integer stored and cast by
    [astype(int)]. *)
Definition from_hdf5 `{PerceptionTypes} (group : h5py.Group) (validate : bool)
    : Exec Log t :=
  let sub_group_name := rpartition_last "/"%char (h5py.name group) in
  let func := if validate then init else construct in
  birth_stamp <- (a <- h5py.attrs_getitem group "birthStamp" ;; ret (astype_int a)) ;;
  heading <- (g <- h5py.getitem group "heading" ;; ValVar.from_hdf5 g validate) ;;
  width <- (g <- h5py.getitem group "width" ;; ValVar.from_hdf5 g validate) ;;
  height <- (g <- h5py.getitem group "height" ;; ValVar.from_hdf5 g validate) ;;
  length <- (g <- h5py.getitem group "length" ;; ValVar.from_hdf5 g validate) ;;
  rcs <- h5py.read_floats group "rcs" ;;
  age <- h5py.read_floats group "age" ;;
  tracking_point <- h5py.read_ints group "trackingPoint" ;;
  confidence_of_existence <- h5py.read_floats group "confidenceOfExistence" ;;
  movement_classification <-
    (codes <- h5py.read_ints group "movementClassification" ;;
     map_each (Enum MovementClassification_member) codes) ;;
  meas_state <-
    (codes <- h5py.read_ints group "measState" ;;
     map_each (Enum MeasState_member) codes) ;;
  dist_longitudinal <- (g <- h5py.getitem group "distLongitudinal" ;; ValVar.from_hdf5 g validate) ;;
  dist_lateral <- (g <- h5py.getitem group "distLateral" ;; ValVar.from_hdf5 g validate) ;;
  dist_z <- (g <- h5py.getitem group "distZ" ;; ValVar.from_hdf5 g validate) ;;
  rel_vel_longitudinal <- (g <- h5py.getitem group "relVelLongitudinal" ;; ValVar.from_hdf5 g validate) ;;
  rel_vel_lateral <- (g <- h5py.getitem group "relVelLateral" ;; ValVar.from_hdf5 g validate) ;;
  abs_vel_longitudinal <- (g <- h5py.getitem group "absVelLongitudinal" ;; ValVar.from_hdf5 g validate) ;;
  abs_vel_lateral <- (g <- h5py.getitem group "absVelLateral" ;; ValVar.from_hdf5 g validate) ;;
  rel_acc_longitudinal <- (g <- h5py.getitem group "relAccLongitudinal" ;; ValVar.from_hdf5 g validate) ;;
  rel_acc_lateral <- (g <- h5py.getitem group "relAccLateral" ;; ValVar.from_hdf5 g validate) ;;
  abs_acc_longitudinal <- (g <- h5py.getitem group "absAccLongitudinal" ;; ValVar.from_hdf5 g validate) ;;
  abs_acc_lateral <- (g <- h5py.getitem group "absAccLateral" ;; ValVar.from_hdf5 g validate) ;;
  object_classification <-
    (g <- h5py.getitem group "objectClassification" ;;
     ObjectClassification.from_hdf5 g validate) ;;
  func (mk sub_group_name birth_stamp heading width height length rcs age tracking_point
          confidence_of_existence movement_classification meas_state
          dist_longitudinal dist_lateral dist_z rel_vel_longitudinal rel_vel_lateral
          abs_vel_longitudinal abs_vel_lateral rel_acc_longitudinal rel_acc_lateral
          abs_acc_longitudinal abs_acc_lateral object_classification).

(** [get_settings] is the module-level settings getter, read at every
    [create_dataset]. *)
Definition to_hdf5 (get_settings : SettingsGetter.t) (self : t) : Exec h5py.Group unit :=
  h5py.attrs_create "birthStamp" (birth_stamp self) ;;
  h5py.create_group "heading" (ValVar.to_hdf5 (heading self)) ;;
  h5py.create_group "width" (ValVar.to_hdf5 (width self)) ;;
  h5py.create_group "height" (ValVar.to_hdf5 (height self)) ;;
  h5py.create_group "length" (ValVar.to_hdf5 (length self)) ;;
  kwargs <- hdf5_compress_args get_settings ;;
  h5py.create_dataset "rcs" (h5py.Floats (rcs self)) kwargs ;;
  kwargs <- hdf5_compress_args get_settings ;;
  h5py.create_dataset "age" (h5py.Floats (age self)) kwargs ;;
  kwargs <- hdf5_compress_args get_settings ;;
  h5py.create_dataset "trackingPoint" (h5py.Ints (tracking_point self)) kwargs ;;
  kwargs <- hdf5_compress_args get_settings ;;
  h5py.create_dataset "confidenceOfExistence" (h5py.Floats (confidence_of_existence self)) kwargs ;;
  kwargs <- hdf5_compress_args get_settings ;;
  h5py.create_dataset "movementClassification" (h5py.Ints (movement_classification self)) kwargs ;;
  kwargs <- hdf5_compress_args get_settings ;;
  h5py.create_dataset "measState" (h5py.Ints (meas_state self)) kwargs ;;
  h5py.create_group "distLongitudinal" (ValVar.to_hdf5 (dist_longitudinal self)) ;;
  h5py.create_group "distLateral" (ValVar.to_hdf5 (dist_lateral self)) ;;
  h5py.create_group "distZ" (ValVar.to_hdf5 (dist_z self)) ;;
  h5py.create_group "relVelLongitudinal" (ValVar.to_hdf5 (rel_vel_longitudinal self)) ;;
  h5py.create_group "relVelLateral" (ValVar.to_hdf5 (rel_vel_lateral self)) ;;
  h5py.create_group "absVelLongitudinal" (ValVar.to_hdf5 (abs_vel_longitudinal self)) ;;
  h5py.create_group "absVelLateral" (ValVar.to_hdf5 (abs_vel_lateral self)) ;;
  h5py.create_group "relAccLongitudinal" (ValVar.to_hdf5 (rel_acc_longitudinal self)) ;;
  h5py.create_group "relAccLateral" (ValVar.to_hdf5 (rel_acc_lateral self)) ;;
  h5py.create_group "absAccLongitudinal" (ValVar.to_hdf5 (abs_acc_longitudinal self)) ;;
  h5py.create_group "absAccLateral" (ValVar.to_hdf5 (abs_acc_lateral self)) ;;
  h5py.create_group "objectClassification"
    (ObjectClassification.to_hdf5 get_settings (object_classification self)).

End Object.

(** ** Statements about the model *)

(** The lengths of all time-indexed sequences of an object: both series of
    the fifteen [ValVar] attributes, the six raw sequences and the two
    sequences of the classification. *)
Definition ValVar_lengths (v : ValVar.t) : list Z :=
  [len (ValVar.val v); len (ValVar.var v)].

Definition time_indexed_lengths (o : Object.t) : list Z :=
  ValVar_lengths (Object.heading o) ++ ValVar_lengths (Object.width o)
  ++ ValVar_lengths (Object.height o) ++ ValVar_lengths (Object.length o)
  ++ [len (Object.rcs o); len (Object.age o); len (Object.tracking_point o);
      len (Object.confidence_of_existence o); len (Object.movement_classification o);
      len (Object.meas_state o)]
  ++ ValVar_lengths (Object.dist_longitudinal o) ++ ValVar_lengths (Object.dist_lateral o)
  ++ ValVar_lengths (Object.dist_z o)
  ++ ValVar_lengths (Object.rel_vel_longitudinal o) ++ ValVar_lengths (Object.rel_vel_lateral o)
  ++ ValVar_lengths (Object.abs_vel_longitudinal o) ++ ValVar_lengths (Object.abs_vel_lateral o)
  ++ ValVar_lengths (Object.rel_acc_longitudinal o) ++ ValVar_lengths (Object.rel_acc_lateral o)
  ++ ValVar_lengths (Object.abs_acc_longitudinal o) ++ ValVar_lengths (Object.abs_acc_lateral o)
  ++ [len (ObjectClassification.val (Object.object_classification o));
      len (ObjectClassification.confidence (Object.object_classification o))].

(** A sequence the cut of the classification accepts: empty, or with an
    element at index [death]. *)
Definition fits {A} (l : list A) (death : Z) : bool :=
  (len l =? 0) || (death <? len l).

(** The object left by the loop over the attributes when every attribute
    before the classification has been cut, given what the cut of the
    classification left. *)
Definition cut_fields (birth death : Z) (o : Object.t) (oc : ObjectClassification.t)
    : Object.t :=
  let cv v := fst (ValVar.cut_to_timespan birth death v) in
  let cs {A} (l : list A) := slice l birth (death + 1) in
  Object.mk (Object.id o) (Object.birth_stamp o + birth)
    (cv (Object.heading o)) (cv (Object.width o)) (cv (Object.height o))
    (cv (Object.length o))
    (cs (Object.rcs o)) (cs (Object.age o)) (cs (Object.tracking_point o))
    (cs (Object.confidence_of_existence o)) (cs (Object.movement_classification o))
    (cs (Object.meas_state o))
    (cv (Object.dist_longitudinal o)) (cv (Object.dist_lateral o)) (cv (Object.dist_z o))
    (cv (Object.rel_vel_longitudinal o)) (cv (Object.rel_vel_lateral o))
    (cv (Object.abs_vel_longitudinal o)) (cv (Object.abs_vel_lateral o))
    (cv (Object.rel_acc_longitudinal o)) (cv (Object.rel_acc_lateral o))
    (cv (Object.abs_acc_longitudinal o)) (cv (Object.abs_acc_lateral o))
    oc.


(** [l'] holds the elements of [l] at the indices [birth] to [death] that
    [l] has, in order and indexed from 0. *)
Definition narrowed_to {A} (l l' : list A) (birth death : Z) : Prop :=
  forall i : nat,
    l' !! i = if decide (Z.of_nat i <= death - birth)
              then l !! (Z.to_nat birth + i)%nat else None.

(** A confidence value that lies in the closed range from 0 to 1. *)
Definition in_unit_interval (x : float) : Prop :=
  PrimFloat.leb 0 x = true /\ PrimFloat.leb x 1 = true.

(** The log after a block that started with [log] and emitted the warning
    of [check_array_length], respectively no warning. *)
Definition length_warned (log : Log) {A} (r : Log * outcome A) : Prop :=
  state r = log ++ [UserWarning ObjectClassification.length_warning].

Definition not_warned (log : Log) {A} (r : Log * outcome A) : Prop :=
  state r = log.

(** What the slice to the indices [birth] to [death] makes of a raw sequence
    [l] whose length was not checked: [l'] is narrowed to these indices, has
    fewer than [death - birth + 1] elements when [l] has no element at index
    [death], and is empty when [l] has none at index [birth]. *)
Definition sliced_unchecked {A} (l l' : list A) (birth death : Z) : Prop :=
  narrowed_to l l' birth death
  /\ (len l <= death -> len l' < death - birth + 1)
  /\ (len l <= birth -> l' = []).

(** Values used where a statement is run on a concrete input. *)
#[export] Instance sample_types : PerceptionTypes := {|
  ObjectClassification_member z := (0 <=? z) && (z <=? 7);
  TrackingPoint_member z := (0 <=? z) && (z <=? 7);
  MovementClassification_member z := (0 <=? z) && (z <=? 7);
  MeasState_member z := (0 <=? z) && (z <=? 7)
|}.

Definition sample_ValVar : ValVar.t :=
  ValVar.mk [1; 2; 3; 4; 5]%float [0; 0; 0; 0; 0]%float.

(** An object of five samples that first exists at the global index 10. *)
Definition sample_object : Object.t :=
  Object.mk "RU-1" 10 sample_ValVar sample_ValVar sample_ValVar sample_ValVar
    [1; 1; 1; 1; 1]%float [0; 1; 2; 3; 4]%float [1; 1; 1; 1; 1]
    [1; 1; 1; 1; 1]%float [2; 2; 2; 2; 2] [3; 3; 3; 3; 3]
    sample_ValVar sample_ValVar sample_ValVar sample_ValVar sample_ValVar sample_ValVar
    sample_ValVar sample_ValVar sample_ValVar sample_ValVar sample_ValVar
    (ObjectClassification.mk [1; 1; 2; 2; 1] [0.5; 0.5; 1; 0; 0.25]%float).

(** The same object built without [rcs], which is then the empty array of
    the default. *)
Definition sample_object_without_rcs : Object.t := Object.set_rcs [] sample_object.

(** An object that its validating constructor accepts as it is, holding a
    classification that its validating constructor accepts as it is. *)
Definition validly_constructed `{PerceptionTypes} (o : Object.t) : Prop :=
  result (Object.init o []) = Returned o
  /\ result (ObjectClassification.init
               (ObjectClassification.val (Object.object_classification o))
               (ObjectClassification.confidence (Object.object_classification o)) [])
     = Returned (Object.object_classification o).


(** A name [Settings.setattr] assigns: a declared field, or one of the names
    handed to [object.__setattr__]. *)
Definition assignable (name : string) : Prop :=
  name ∈ Settings.fields \/ name ∈ Settings.DUNDER_ATTRIBUTES.





(** Settings that expose the compression options, and a new group of a file. *)
Definition sample_settings : SettingsGetter.t :=
  SettingsGetter.mk
    (<["hdf5_compress_args" := Settings.Dict [("compression", Settings.Str "gzip")]]>
       Settings.default).

Definition sample_group : h5py.Group := h5py.mk "/perception/object7" ∅ ∅.



(** *** Running blocks *)

Lemma bind_ret {S A B} (a : A) (k : A -> Exec S B) (s : S) :
  bind (ret a) k s = k a s.
Proof. reflexivity. Qed.

Lemma bind_raise {S A B} (e : exn) (k : A -> Exec S B) (s : S) :
  bind (raise e) k s = (s, Raised e).
Proof. reflexivity. Qed.

Lemma bind_get {S B} (k : S -> Exec S B) (s : S) :
  bind get k s = k s s.
Proof. reflexivity. Qed.

Lemma bind_modify {S B} (f : S -> S) (k : unit -> Exec S B) (s : S) :
  bind (modify f) k s = k tt (f s).
Proof. reflexivity. Qed.

Lemma bind_bind {S A B C} (m : Exec S A) (k : A -> Exec S B) (h : B -> Exec S C) (s : S) :
  bind (bind m k) h s = bind m (fun a => bind (k a) h) s.
Proof. unfold bind. destruct (m s) as [s' [a|e]]; reflexivity. Qed.

(** One step of a block whose tests are settled by linear arithmetic. *)
Ltac arith := unfold len in *; cbn [length] in *; change (Z.of_nat 0) with 0 in *; lia.

Ltac settle c := first [ replace c with true by arith | replace c with false by arith ].

Ltac settle_test :=
  match goal with
  | |- context [?a >? ?b] => settle (a >? b)
  | |- context [?a >=? ?b] => settle (a >=? b)
  | |- context [?a <? ?b] => settle (a <? b)
  | |- context [?a <=? ?b] => settle (a <=? b)
  | |- context [?a =? ?b] => settle (a =? b)
  end;
  cbn [orb andb negb]; cbv iota.

Ltac run_step :=
  first [ rewrite bind_ret | rewrite bind_raise | rewrite bind_get
        | rewrite bind_modify | rewrite bind_bind | settle_test ];
  cbv beta;
  cbn [ObjectClassification.val ObjectClassification.confidence
       ObjectClassification.set_val ObjectClassification.set_confidence].

Ltac run_block := unfold assert; repeat run_step.

(** *** Slices *)

Lemma slice_inclusive {A} (l : list A) (birth death : Z) :
  0 <= birth -> birth <= death ->
  slice l birth (death + 1)
  = take (Z.to_nat (death - birth + 1)) (drop (Z.to_nat birth) l).
Proof.
  intros Hb Hd. unfold slice, slice_bound, len.
  destruct (birth <? 0) eqn:E1; [lia|].
  destruct (death + 1 <? 0) eqn:E2; [lia|].
  destruct (Z_lt_le_dec (Z.of_nat (length l)) birth) as [Hlt|Hle].
  - rewrite !Z.min_r by lia.
    rewrite (drop_ge l (Z.to_nat birth)) by lia.
    rewrite take_nil. replace (Z.to_nat _) with 0%nat by lia. reflexivity.
  - rewrite (Z.min_l birth) by lia.
    destruct (Z_lt_le_dec (Z.of_nat (length l)) (death + 1)) as [Hlt'|Hle'].
    + rewrite Z.min_r by lia.
      rewrite !take_ge; [reflexivity| |]; rewrite length_drop; lia.
    + rewrite Z.min_l by lia. f_equal. lia.
Qed.

Lemma slice_inclusive_len {A} (l : list A) (birth death : Z) :
  0 <= birth -> birth <= death ->
  len (slice l birth (death + 1))
  = Z.max 0 (Z.min (death + 1) (len l) - birth).
Proof.
  intros Hb Hd. rewrite slice_inclusive by assumption.
  unfold len. rewrite length_take, length_drop. lia.
Qed.

Lemma slice_inclusive_full {A} (l : list A) (birth death : Z) :
  0 <= birth -> birth <= death -> death < len l ->
  len (slice l birth (death + 1)) = death - birth + 1.
Proof. intros. rewrite slice_inclusive_len by assumption. lia. Qed.

Lemma slice_inclusive_lookup {A} (l : list A) (birth death : Z) (i : nat) :
  0 <= birth -> birth <= death ->
  slice l birth (death + 1) !! i
  = if decide (Z.of_nat i <= death - birth) then l !! (Z.to_nat birth + i)%nat else None.
Proof.
  intros Hb Hd. rewrite slice_inclusive by assumption.
  case_decide.
  - rewrite lookup_take_lt by lia. apply lookup_drop.
  - apply lookup_take_ge. lia.
Qed.

(** *** The cut of an object *)

Lemma Object_cut_run (o : Object.t) (birth death : Z) :
  0 <= birth -> birth <= death -> death < Object.len o ->
  Object.cut_to_timespan birth death o
  = let r := ObjectClassification.cut_to_timespan birth death
               (Object.object_classification o) in
    (cut_fields birth death o (fst r), snd r).
Proof.
  intros Hb Hd Hl. destruct o. destruct dist_lateral as [dval dvar].
  unfold Object.len in Hl. cbn in Hl.
  cbv -[slice ObjectClassification.cut_to_timespan Z.add Z.geb Z.leb Z.gtb len].
  replace (birth >=? 0) with true by lia.
  replace (birth <=? death) with true by lia.
  replace (len dval >? death) with true by lia.
  destruct (ObjectClassification.cut_to_timespan birth death object_classification)
    as [oc [[]|e]]; reflexivity.
Qed.

Lemma slice_nil {A} (start stop : Z) : slice (@nil A) start stop = [].
Proof. unfold slice. rewrite drop_nil. apply take_nil. Qed.

Lemma ObjectClassification_cut_run (oc : ObjectClassification.t) (birth death : Z) :
  0 <= birth -> birth <= death ->
  ObjectClassification.cut_to_timespan birth death oc
  = if fits (ObjectClassification.val oc) death then
      let oc' := ObjectClassification.set_val
                   (slice (ObjectClassification.val oc) birth (death + 1)) oc in
      if fits (ObjectClassification.confidence oc) death then
        (ObjectClassification.set_confidence
           (slice (ObjectClassification.confidence oc) birth (death + 1)) oc',
         Returned tt)
      else (oc', Raised AssertionError)
    else (oc, Raised AssertionError).
Proof.
  intros Hb Hd. destruct oc as [val conf].
  unfold ObjectClassification.cut_to_timespan, fits.
  cbn [ObjectClassification.val ObjectClassification.confidence].
  assert (Hv : val = [] \/ (0 < len val /\ death < len val)
               \/ (0 < len val /\ len val <= death)).
  { destruct val; [left; reflexivity | right; unfold len; cbn [length]; lia]. }
  assert (Hc : conf = [] \/ (0 < len conf /\ death < len conf)
               \/ (0 < len conf /\ len conf <= death)).
  { destruct conf; [left; reflexivity | right; unfold len; cbn [length]; lia]. }
  destruct Hv as [->|[[Hv Hv']|[Hv Hv']]]; destruct Hc as [->|[[Hc Hc']|[Hc Hc']]].
  all: rewrite ?slice_nil.
  all: run_block; try reflexivity.
  all: match goal with |- context [if ?l >? ?b then _ else _] => destruct (l >? b) end.
  all: run_block; reflexivity.
Qed.

Lemma fits_spec {A} (l : list A) (death : Z) :
  fits l death = true <-> l = [] \/ death < len l.
Proof.
  unfold fits. rewrite orb_true_iff, Z.eqb_eq, Z.ltb_lt.
  split; (intros [H|H]; [left|right; exact H]).
  - destruct l; [reflexivity|]. unfold len in H. cbn in H. lia.
  - rewrite H. reflexivity.
Qed.

Lemma slice_narrowed {A} (l : list A) (birth death : Z) :
  0 <= birth -> birth <= death ->
  narrowed_to l (slice l birth (death + 1)) birth death.
Proof. intros Hb Hd i. apply slice_inclusive_lookup; assumption. Qed.

Lemma slice_inclusive_short {A} (l : list A) (birth death : Z) :
  0 <= birth -> birth <= death -> len l <= death ->
  len (slice l birth (death + 1)) < death - birth + 1.
Proof. intros. rewrite slice_inclusive_len by assumption. lia. Qed.

Lemma slice_inclusive_empty {A} (l : list A) (birth death : Z) :
  0 <= birth -> birth <= death -> len l <= birth ->
  slice l birth (death + 1) = [].
Proof.
  intros Hb Hd Hl.
  assert (H : len (slice l birth (death + 1)) = 0)
    by (rewrite slice_inclusive_len by assumption; lia).
  destruct (slice l birth (death + 1)); [reflexivity|].
  unfold len in H. cbn in H. lia.
Qed.

Lemma Object_cut_refused (o : Object.t) (birth death : Z) :
  birth < 0 \/ death < birth \/ Object.len o <= death ->
  Object.cut_to_timespan birth death o = (o, Raised AssertionError).
Proof.
  intros H. unfold Object.cut_to_timespan, assert.
  destruct (Z.geb_spec birth 0) as [Hb|Hb]; [|reflexivity].
  rewrite bind_ret.
  destruct (Z.leb_spec birth death) as [Hd|Hd]; [|reflexivity].
  rewrite bind_ret, bind_get.
  destruct (Z.gtb_spec (Object.len o) death) as [Hl|Hl]; [lia|reflexivity].
Qed.

(** *** Claims about [cut_to_timespan] and [in_timespan] *)

(** C4.  [Object.cut_to_timespan(birth, death)] fails whenever [birth > death],
    [birth < 0] or [death >= len], with the AssertionError of its [assert]
    statements and before anything is assigned; in particular
    [cut_to_timespan(2, 10)] fails on an object with [len = 5]. *)
Theorem cut_out_of_range_fails (o : Object.t) (birth death : Z) :
  birth > death \/ birth < 0 \/ death >= Object.len o ->
  Object.cut_to_timespan birth death o = (o, Raised AssertionError)
  /\ (Object.len o = 5 ->
      result (Object.cut_to_timespan 2 10 o) = Raised AssertionError).
Proof.
  intros H. split.
  - apply Object_cut_refused. lia.
  - intros H5. rewrite Object_cut_refused by lia. reflexivity.
Qed.

Lemma cut_out_of_range_fails_witness :
  (2 > 10 \/ 2 < 0 \/ 10 >= Object.len sample_object)
  /\ Object.cut_to_timespan 2 10 sample_object = (sample_object, Raised AssertionError).
Proof.
  assert (H : 2 > 10 \/ 2 < 0 \/ 10 >= Object.len sample_object)
    by (right; right; vm_compute; discriminate).
  split; [exact H | exact (proj1 (cut_out_of_range_fails sample_object 2 10 H))].
Defined.

(** C3.  After [cut_to_timespan(birth, death)] with [0 <= birth <= death < len]
    the birth stamp is the original one plus [birth], and [id], the attribute
    that is neither a [ValVar], an [ObjectClassification], a list nor an
    array, is unchanged.  This holds of the object the call leaves, whether
    it returned or the cut of the classification raised. *)
Theorem cut_shifts_birth_stamp (o : Object.t) (birth death : Z) :
  0 <= birth -> birth <= death -> death < Object.len o ->
  Object.birth_stamp (state (Object.cut_to_timespan birth death o))
  = Object.birth_stamp o + birth
  /\ Object.id (state (Object.cut_to_timespan birth death o)) = Object.id o.
Proof.
  intros Hb Hd Hl. rewrite Object_cut_run by assumption.
  split; reflexivity.
Qed.

Lemma cut_shifts_birth_stamp_witness :
  (0 <= 1 /\ 1 <= 3 /\ 3 < Object.len sample_object)
  /\ Object.birth_stamp (state (Object.cut_to_timespan 1 3 sample_object)) = 10 + 1
  /\ Object.id (state (Object.cut_to_timespan 1 3 sample_object)) = "RU-1".
Proof.
  assert (H1 : 0 <= 1) by lia.
  assert (H2 : 1 <= 3) by lia.
  assert (H3 : 3 < Object.len sample_object) by (vm_compute; reflexivity).
  split; [auto | exact (cut_shifts_birth_stamp sample_object 1 3 H1 H2 H3)].
Defined.

(** C5.  [in_timespan(birth, death)] is true exactly when
    [death >= birth_stamp] and [birth < birth_stamp + len]; for an object
    that has samples and a window with [birth <= death] this says that some
    global index lies both in the extent of the object and in the window.
    With [birth_stamp = 10] and [len = 5] it is true for (14, 20), false for
    (15, 20), true for (0, 10) and false for (0, 9). *)
Theorem in_timespan_overlap (o : Object.t) (birth death : Z) :
  (Object.in_timespan o birth death = true
   <-> death >= Object.birth_stamp o /\ birth < Object.birth_stamp o + Object.len o)
  /\ (0 < Object.len o -> birth <= death ->
      (Object.in_timespan o birth death = true
       <-> exists t, Object.birth_stamp o <= t < Object.birth_stamp o + Object.len o
                     /\ birth <= t <= death))
  /\ (Object.birth_stamp o = 10 -> Object.len o = 5 ->
      Object.in_timespan o 14 20 = true /\ Object.in_timespan o 15 20 = false
      /\ Object.in_timespan o 0 10 = true /\ Object.in_timespan o 0 9 = false).
Proof.
  assert (Hiff : forall b d, Object.in_timespan o b d = true
     <-> d >= Object.birth_stamp o /\ b < Object.birth_stamp o + Object.len o).
  { intros b d. unfold Object.in_timespan, Object.len.
    rewrite andb_true_iff, Z.ltb_lt, Z.geb_le. lia. }
  split; [apply Hiff|]. split.
  - intros Hlen Hw. rewrite Hiff. split.
    + intros [H1 H2]. exists (Z.max birth (Object.birth_stamp o)). lia.
    + intros (t & H1 & H2). lia.
  - intros Hs Hl.
    assert (Hnot : forall b d, Object.in_timespan o b d = false
       <-> ~ (d >= Object.birth_stamp o /\ b < Object.birth_stamp o + Object.len o)).
    { intros b d. rewrite <- Hiff. destruct (Object.in_timespan o b d); split; congruence. }
    rewrite !Hiff, !Hnot. lia.
Qed.

Lemma in_timespan_overlap_witness :
  (Object.birth_stamp sample_object = 10 /\ Object.len sample_object = 5)
  /\ Object.in_timespan sample_object 14 20 = true
  /\ Object.in_timespan sample_object 15 20 = false
  /\ Object.in_timespan sample_object 0 10 = true
  /\ Object.in_timespan sample_object 0 9 = false.
Proof.
  assert (H1 : Object.birth_stamp sample_object = 10) by reflexivity.
  assert (H2 : Object.len sample_object = 5) by reflexivity.
  split; [auto | exact (proj2 (proj2 (in_timespan_overlap sample_object 0 0)) H1 H2)].
Defined.

(** C8.  With [0 <= birth <= death], [ObjectClassification.cut_to_timespan]
    treats its two sequences independently.  It returns exactly when each
    sequence is empty or has an element at index [death], and fails with the
    AssertionError of its [assert] statements otherwise; when it returns, a
    non-empty sequence has been narrowed to the indices [birth] to [death],
    [death - birth + 1] elements, and an empty one is still empty.  So an
    empty confidence sequence stays empty while the labels are trimmed. *)
Theorem classification_cut_independent (oc : ObjectClassification.t) (birth death : Z) :
  0 <= birth -> birth <= death ->
  let r := ObjectClassification.cut_to_timespan birth death oc in
  let labels := ObjectClassification.val oc in
  let confidence := ObjectClassification.confidence oc in
  let labels' := ObjectClassification.val (state r) in
  let confidence' := ObjectClassification.confidence (state r) in
  (result r = Returned tt
   <-> (labels = [] \/ len labels > death) /\ (confidence = [] \/ len confidence > death))
  /\ (result r = Returned tt \/ result r = Raised AssertionError)
  /\ (result r = Returned tt ->
      narrowed_to labels labels' birth death
      /\ narrowed_to confidence confidence' birth death
      /\ (labels = [] -> labels' = [])
      /\ (labels <> [] -> len labels' = death - birth + 1)
      /\ (confidence = [] -> confidence' = [])
      /\ (confidence <> [] -> len confidence' = death - birth + 1))
  /\ (confidence = [] -> len labels > death ->
      result r = Returned tt /\ len labels' = death - birth + 1 /\ len confidence' = 0).
Proof.
  intros Hb Hd r labels confidence labels' confidence'.
  subst r labels' confidence'.
  rewrite ObjectClassification_cut_run by assumption.
  fold labels confidence.
  assert (Hlen : forall {A} (l : list A),
             (l = [] \/ len l > death) -> l <> [] -> death < len l).
  { intros A l [->|H] Hne; [congruence | lia]. }
  destruct (fits labels death) eqn:Fl; [destruct (fits confidence death) eqn:Fc|];
    cbn [state result fst snd ObjectClassification.val ObjectClassification.confidence
         ObjectClassification.set_val ObjectClassification.set_confidence].
  - apply fits_spec in Fl, Fc.
    assert (Fl' : labels = [] \/ len labels > death) by (destruct Fl; [left|right]; auto; lia).
    assert (Fc' : confidence = [] \/ len confidence > death)
      by (destruct Fc; [left|right]; auto; lia).
    split; [tauto|]. split; [tauto|]. split.
    + intros _. repeat split.
      * apply slice_narrowed; assumption.
      * apply slice_narrowed; assumption.
      * intros ->. apply slice_nil.
      * intros Hne. apply slice_inclusive_full; auto.
      * intros ->. apply slice_nil.
      * intros Hne. apply slice_inclusive_full; auto.
    + intros Hc Hl. split; [reflexivity|]. split.
      * apply slice_inclusive_full; auto; lia.
      * rewrite Hc, slice_nil. reflexivity.
  - assert (Fc' : ~ (confidence = [] \/ len confidence > death)).
    { intros H. apply not_true_iff_false in Fc. apply Fc, fits_spec.
      destruct H; [left|right]; auto; lia. }
    split; [split; [discriminate | tauto]|]. split; [tauto|].
    split; [discriminate|]. intros Hc _. tauto.
  - assert (Fl' : ~ (labels = [] \/ len labels > death)).
    { intros H. apply not_true_iff_false in Fl. apply Fl, fits_spec.
      destruct H; [left|right]; auto; lia. }
    split; [split; [discriminate | tauto]|]. split; [tauto|].
    split; [discriminate|]. intros _ Hl. tauto.
Qed.

Lemma classification_cut_independent_witness :
  (0 <= 1 /\ 1 <= 3)
  /\ result (ObjectClassification.cut_to_timespan 1 3
               (ObjectClassification.mk [1; 1; 2; 2; 1] [])) = Returned tt
  /\ len (ObjectClassification.val
            (state (ObjectClassification.cut_to_timespan 1 3
                      (ObjectClassification.mk [1; 1; 2; 2; 1] [])))) = 3 - 1 + 1
  /\ len (ObjectClassification.confidence
            (state (ObjectClassification.cut_to_timespan 1 3
                      (ObjectClassification.mk [1; 1; 2; 2; 1] [])))) = 0.
Proof.
  assert (H1 : 0 <= 1) by lia.
  assert (H2 : 1 <= 3) by lia.
  assert (H3 : len [1; 1; 2; 2; 1] > 3) by reflexivity.
  split; [auto|].
  exact (proj2 (proj2 (proj2 (classification_cut_independent
                                (ObjectClassification.mk [1; 1; 2; 2; 1] []) 1 3 H1 H2)))
           eq_refl H3).
Defined.

Lemma fits_long {A} (l : list A) (death : Z) :
  death < len l -> fits l death = true.
Proof. intros H. apply fits_spec. right. exact H. Qed.

Ltac split_Forall H :=
  repeat (apply Forall_cons in H; destruct H as [? H]).

(** The claim C2 as it is stated fails.  An object of five samples in every
    time-indexed sequence but [rcs], which is empty, has [len = 5];
    [cut_to_timespan(1, 3)] returns and leaves [len = 3], and [rcs] is empty
    afterwards, not of [3 - 1 + 1] elements. *)
Lemma cut_length_counterexample :
  (0 <= 1 /\ 1 <= 3 /\ 3 < Object.len sample_object_without_rcs)
  /\ result (Object.cut_to_timespan 1 3 sample_object_without_rcs) = Returned tt
  /\ Object.len (state (Object.cut_to_timespan 1 3 sample_object_without_rcs)) = 3 - 1 + 1
  /\ len (Object.rcs (state (Object.cut_to_timespan 1 3 sample_object_without_rcs)))
     <> 3 - 1 + 1.
Proof. vm_compute. repeat split; congruence. Qed.

(** C2, amended.  For an object and [0 <= birth <= death < len] such that
    every time-indexed sequence has an element at index [death] (as when all
    of them have [len] elements), [cut_to_timespan(birth, death)] returns and
    leaves [len] and every time-indexed sequence at exactly
    [death - birth + 1] elements. *)
Theorem cut_length_postcondition (o : Object.t) (birth death : Z) :
  0 <= birth -> birth <= death -> death < Object.len o ->
  Forall (fun n => n > death) (time_indexed_lengths o) ->
  let r := Object.cut_to_timespan birth death o in
  result r = Returned tt
  /\ Object.len (state r) = death - birth + 1
  /\ Forall (fun n => n = death - birth + 1) (time_indexed_lengths (state r)).
Proof.
  intros Hb Hd Hl Hall r. subst r.
  rewrite Object_cut_run, ObjectClassification_cut_run by assumption.
  destruct o. unfold time_indexed_lengths, ValVar_lengths in *.
  cbn [Object.heading Object.width Object.height Object.length Object.rcs Object.age
       Object.tracking_point Object.confidence_of_existence
       Object.movement_classification Object.meas_state Object.dist_longitudinal
       Object.dist_lateral Object.dist_z Object.rel_vel_longitudinal
       Object.rel_vel_lateral Object.abs_vel_longitudinal Object.abs_vel_lateral
       Object.rel_acc_longitudinal Object.rel_acc_lateral Object.abs_acc_longitudinal
       Object.abs_acc_lateral Object.object_classification app] in *.
  split_Forall Hall.
  rewrite !fits_long by lia.
  cbn -[slice Z.add].
  split; [reflexivity|]. split.
  - unfold Object.len. cbn -[slice Z.add]. apply slice_inclusive_full; lia.
  - repeat (apply Forall_cons; split; [apply slice_inclusive_full; lia|]).
    apply Forall_nil. constructor.
Qed.

Lemma cut_length_postcondition_witness :
  (0 <= 1 /\ 1 <= 3 /\ 3 < Object.len sample_object
   /\ Forall (fun n => n > 3) (time_indexed_lengths sample_object))
  /\ result (Object.cut_to_timespan 1 3 sample_object) = Returned tt
  /\ Object.len (state (Object.cut_to_timespan 1 3 sample_object)) = 3 - 1 + 1
  /\ Forall (fun n => n = 3 - 1 + 1)
       (time_indexed_lengths (state (Object.cut_to_timespan 1 3 sample_object))).
Proof.
  assert (H1 : 0 <= 1) by lia.
  assert (H2 : 1 <= 3) by lia.
  assert (H3 : 3 < Object.len sample_object) by reflexivity.
  assert (H4 : Forall (fun n => n > 3) (time_indexed_lengths sample_object))
    by (repeat (constructor; [reflexivity|]); constructor).
  split; [auto|].
  exact (cut_length_postcondition sample_object 1 3 H1 H2 H3 H4).
Defined.

Lemma slice_unchecked {A} (l : list A) (birth death : Z) :
  0 <= birth -> birth <= death ->
  sliced_unchecked l (slice l birth (death + 1)) birth death.
Proof.
  intros Hb Hd. split; [|split].
  - apply slice_narrowed; assumption.
  - apply slice_inclusive_short; assumption.
  - apply slice_inclusive_empty; assumption.
Qed.

(** C10.  [Object.cut_to_timespan] checks [death] against the length of the
    value series of [dist_lateral] only.  With [0 <= birth <= death < len],
    whatever the lengths of the six raw sequences, the call ends as the cut
    of the classification ends (so it returns when each sequence of the
    classification is empty or has an element at index [death]), and each raw
    sequence has been replaced by its slice: fewer than [death - birth + 1]
    elements when it had [death] elements or less, none when it had [birth]
    elements or less. *)
Theorem raw_sequences_cut_unchecked (o : Object.t) (birth death : Z) :
  0 <= birth -> birth <= death -> death < Object.len o ->
  let r := Object.cut_to_timespan birth death o in
  let oc := Object.object_classification o in
  result r = result (ObjectClassification.cut_to_timespan birth death oc)
  /\ ((ObjectClassification.val oc = [] \/ len (ObjectClassification.val oc) > death)
      /\ (ObjectClassification.confidence oc = []
          \/ len (ObjectClassification.confidence oc) > death) ->
      result r = Returned tt)
  /\ sliced_unchecked (Object.rcs o) (Object.rcs (state r)) birth death
  /\ sliced_unchecked (Object.age o) (Object.age (state r)) birth death
  /\ sliced_unchecked (Object.tracking_point o) (Object.tracking_point (state r))
       birth death
  /\ sliced_unchecked (Object.confidence_of_existence o)
       (Object.confidence_of_existence (state r)) birth death
  /\ sliced_unchecked (Object.movement_classification o)
       (Object.movement_classification (state r)) birth death
  /\ sliced_unchecked (Object.meas_state o) (Object.meas_state (state r)) birth death.
Proof.
  intros Hb Hd Hl r oc. subst r.
  rewrite Object_cut_run by assumption.
  cbn [state result fst snd cut_fields Object.rcs Object.age Object.tracking_point
       Object.confidence_of_existence Object.movement_classification Object.meas_state].
  fold oc.
  split; [reflexivity|]. split.
  - intros [Hv Hc]. rewrite ObjectClassification_cut_run by assumption.
    rewrite !(proj2 (fits_spec _ _)); [reflexivity| |].
    + destruct Hc; [left|right]; auto; lia.
    + destruct Hv; [left|right]; auto; lia.
  - repeat split; apply slice_unchecked; assumption.
Qed.

Lemma raw_sequences_cut_unchecked_witness :
  (0 <= 1 /\ 1 <= 3 /\ 3 < Object.len sample_object_without_rcs)
  /\ result (Object.cut_to_timespan 1 3 sample_object_without_rcs) = Returned tt
  /\ sliced_unchecked (Object.rcs sample_object_without_rcs)
       (Object.rcs (state (Object.cut_to_timespan 1 3 sample_object_without_rcs))) 1 3.
Proof.
  assert (H1 : 0 <= 1) by lia.
  assert (H2 : 1 <= 3) by lia.
  assert (H3 : 3 < Object.len sample_object_without_rcs) by reflexivity.
  pose proof (raw_sequences_cut_unchecked sample_object_without_rcs 1 3 H1 H2 H3) as H.
  split; [auto|]. split.
  - apply (proj1 (proj2 H)). split; right; reflexivity.
  - exact (proj1 (proj2 (proj2 H))).
Defined.

(** *** Claims about the construction of a classification *)

Lemma all_between_0_and_1_spec (v : list float) :
  ObjectClassification.all_between_0_and_1 v = true
  <-> forall x, x ∈ v -> in_unit_interval x.
Proof.
  unfold ObjectClassification.all_between_0_and_1, in_unit_interval.
  induction v as [|y v IH]; cbn [forallb].
  - split; [|reflexivity]. intros _ x Hx. inversion Hx.
  - rewrite andb_true_iff, IH, andb_true_iff. split.
    + intros [Hy Hv] x Hx. apply elem_of_cons in Hx as [->|Hx]; auto.
    + intros H. split; [apply H; left | intros x Hx; apply H; right; exact Hx].
Qed.

Lemma range_check_spec (v : list float) :
  (len v =? 0) || ObjectClassification.all_between_0_and_1 v = true
  <-> forall x, x ∈ v -> in_unit_interval x.
Proof.
  rewrite orb_true_iff, all_between_0_and_1_spec, Z.eqb_eq. split.
  - intros [H|H]; [|exact H]. destruct v; [|unfold len in H; cbn in H; lia].
    intros x Hx. inversion Hx.
  - intros H. right. exact H.
Qed.

Lemma ObjectClassification_init_run `{PerceptionTypes}
    (val : list Z) (confidence : list float) (log : Log) :
  forallb ObjectClassification_member val = true ->
  ObjectClassification.init val confidence log
  = if (len confidence =? 0) || ObjectClassification.all_between_0_and_1 confidence
    then (if negb (len confidence =? len val)
          then log ++ [UserWarning ObjectClassification.length_warning] else log,
          Returned (ObjectClassification.mk val confidence))
    else (log, Raised ValidationError).
Proof.
  intros Hval. unfold ObjectClassification.init. rewrite Hval.
  unfold ObjectClassification.validator, ObjectClassification.check_confidence_values,
    ObjectClassification.check_array_length, warn, assert, bind, ret, raise, modify.
  destruct ((len confidence =? 0) || ObjectClassification.all_between_0_and_1 confidence);
    [|reflexivity].
  destruct (negb (len confidence =? len val)); reflexivity.
Qed.

(** C6.  The validated construction of a classification, given labels that
    are members of the enumeration, fails with a ValidationError if some
    confidence value lies outside the closed range from 0 to 1, as 1.5 does,
    and succeeds when every confidence value lies in it, as 0.0 and 1.0 do,
    and so when there is no confidence value. *)
Theorem confidence_range_validated `{PerceptionTypes}
    (val : list Z) (confidence : list float) (log : Log) :
  forallb ObjectClassification_member val = true ->
  ((exists x, x ∈ confidence /\ ~ in_unit_interval x) ->
   result (ObjectClassification.init val confidence log) = Raised ValidationError)
  /\ ((forall x, x ∈ confidence -> in_unit_interval x) ->
      result (ObjectClassification.init val confidence log)
      = Returned (ObjectClassification.mk val confidence))
  /\ result (ObjectClassification.init val [1.5%float] log) = Raised ValidationError
  /\ result (ObjectClassification.init val [0%float; 1%float] log)
     = Returned (ObjectClassification.mk val [0%float; 1%float])
  /\ result (ObjectClassification.init val [] log)
     = Returned (ObjectClassification.mk val []).
Proof.
  intros Hval. rewrite !ObjectClassification_init_run by assumption.
  repeat split.
  - intros (x & Hx & Hout).
    destruct ((len confidence =? 0) || ObjectClassification.all_between_0_and_1 confidence)
      eqn:E; [|reflexivity].
    exfalso. apply Hout. apply (proj1 (range_check_spec confidence) E x Hx).
  - intros Hin. apply range_check_spec in Hin. rewrite Hin. reflexivity.
Qed.

Lemma confidence_range_validated_witness :
  forallb ObjectClassification_member [1; 1; 2; 2; 1] = true
  /\ result (ObjectClassification.init [1; 1; 2; 2; 1] [1.5%float] []) = Raised ValidationError
  /\ result (ObjectClassification.init [1; 1; 2; 2; 1] [0%float; 1%float] [])
     = Returned (ObjectClassification.mk [1; 1; 2; 2; 1] [0%float; 1%float]).
Proof.
  assert (H : forallb ObjectClassification_member [1; 1; 2; 2; 1] = true) by reflexivity.
  pose proof (confidence_range_validated [1; 1; 2; 2; 1] [] [] H) as (_ & _ & H1 & H2 & _).
  split; [exact H|]. split; [exact H1 | exact H2].
Defined.

Lemma snoc_ne {A} (l : list A) (x : A) : l ++ [x] <> l.
Proof.
  intros H. apply (f_equal length) in H. rewrite length_app in H. cbn in H. lia.
Qed.

(** The claim C7 as it is stated fails.  Five labels and an empty confidence
    sequence construct and the warning is emitted, although the confidence
    sequence is empty: the warning is not tied to a non-empty confidence
    sequence.  And one label with the confidence values 1.5 and 0.5, of
    different lengths, does not construct.  Five labels with the confidence
    left out, which is then empty as well, construct without the warning. *)
Lemma length_warning_counterexample :
  result (ObjectClassification.init [1; 1; 2; 2; 1] [] [])
  = Returned (ObjectClassification.mk [1; 1; 2; 2; 1] [])
  /\ ~ (length_warned [] (ObjectClassification.init [1; 1; 2; 2; 1] [] [])
        <-> len [1; 1; 2; 2; 1] <> len (@nil float) /\ @nil float <> [])
  /\ len [1] <> len [1.5%float; 0.5%float]
  /\ result (ObjectClassification.init [1] [1.5%float; 0.5%float] [])
     = Raised ValidationError
  /\ ObjectClassification.init_kwargs (Some [1; 1; 2; 2; 1]) None []
     = ([], Returned (ObjectClassification.mk [1; 1; 2; 2; 1] [])).
Proof.
  split; [reflexivity|]. split; [|split; [discriminate | split; reflexivity]].
  intros [H _]. assert (Hw : length_warned [] (ObjectClassification.init [1; 1; 2; 2; 1] [] []))
    by reflexivity.
  destruct (H Hw) as [_ Hne]. apply Hne. reflexivity.
Qed.

(** C7, amended.  In the validated construction of a classification from
    labels that are members of the enumeration, a difference between the
    lengths of the labels and of the confidence sequence never makes the
    construction fail.  When a confidence sequence is passed, the
    construction succeeds exactly when every confidence value lies between 0
    and 1, and when it succeeds the warning is emitted if and only if the
    lengths differ, whether the confidence sequence is empty or not; in
    particular five labels with an empty confidence sequence construct and
    emit the warning.  When the confidence is left out, it is the empty
    array of the default, no validator runs, and the construction succeeds
    without a warning, whatever the number of labels. *)
Theorem length_mismatch_warns `{PerceptionTypes}
    (val : list Z) (confidence : list float) (log : Log) :
  forallb ObjectClassification_member val = true ->
  (result (ObjectClassification.init val confidence log)
   = Returned (ObjectClassification.mk val confidence)
   <-> forall x, x ∈ confidence -> in_unit_interval x)
  /\ ((forall x, x ∈ confidence -> in_unit_interval x) ->
      (length_warned log (ObjectClassification.init val confidence log)
       <-> len confidence <> len val)
      /\ (not_warned log (ObjectClassification.init val confidence log)
          <-> len confidence = len val))
  /\ (len val = 5 ->
      ObjectClassification.init val [] log
      = (log ++ [UserWarning ObjectClassification.length_warning],
         Returned (ObjectClassification.mk val [])))
  /\ ObjectClassification.init_kwargs (Some val) (Some confidence) log
     = ObjectClassification.init val confidence log
  /\ ObjectClassification.init_kwargs (Some val) None log
     = (log, Returned (ObjectClassification.mk val [])).
Proof.
  intros Hval.
  assert (Hgiven : ObjectClassification.init_kwargs (Some val) (Some confidence) log
                   = ObjectClassification.init val confidence log) by reflexivity.
  assert (Hleft : ObjectClassification.init_kwargs (Some val) None log
                  = (log, Returned (ObjectClassification.mk val [])))
    by (unfold ObjectClassification.init_kwargs; rewrite Hval; reflexivity).
  rewrite Hgiven, Hleft. rewrite !ObjectClassification_init_run by assumption.
  split; [|split; [|split; [|split; reflexivity]]].
  - rewrite <- range_check_spec.
    destruct ((len confidence =? 0) || ObjectClassification.all_between_0_and_1 confidence);
      cbn [result snd]; split; congruence.
  - intros Hin. apply range_check_spec in Hin. rewrite Hin.
    unfold length_warned, not_warned. cbn [state fst].
    destruct (Z.eqb_spec (len confidence) (len val)) as [E|E]; cbn [negb].
    + split; split; try congruence. intros Hw. symmetry in Hw. apply snoc_ne in Hw. contradiction.
    + split; split; try congruence. intros Hw. apply snoc_ne in Hw. contradiction.
  - intros H5. rewrite H5. reflexivity.
Qed.

Lemma length_mismatch_warns_witness :
  forallb ObjectClassification_member [1; 1; 2; 2; 1] = true
  /\ len [1; 1; 2; 2; 1] = 5
  /\ ObjectClassification.init [1; 1; 2; 2; 1] [] []
     = ([UserWarning ObjectClassification.length_warning],
        Returned (ObjectClassification.mk [1; 1; 2; 2; 1] []))
  /\ ObjectClassification.init_kwargs (Some [1; 1; 2; 2; 1]) None []
     = ([], Returned (ObjectClassification.mk [1; 1; 2; 2; 1] [])).
Proof.
  assert (H : forallb ObjectClassification_member [1; 1; 2; 2; 1] = true) by reflexivity.
  assert (H5 : len [1; 1; 2; 2; 1] = 5) by reflexivity.
  destruct (length_mismatch_warns [1; 1; 2; 2; 1] [] [] H) as (_ & _ & W5 & _ & Wleft).
  split; [exact H|]. split; [exact H5|]. split; [exact (W5 H5) | exact Wleft].
Defined.

(** *** Claims about the settings *)

Lemma is_not_None_spec (v : Settings.value) :
  Settings.is_not_None v = true <-> v <> Settings.None_.
Proof. destruct v; cbn; split; congruence. Qed.

Lemma SettingsGetter_set_cons (k : string) (v : Settings.value)
    (kwargs : list (string * Settings.value)) (self : SettingsGetter.t) :
  SettingsGetter.set ((k, v) :: kwargs) self
  = if Settings.is_not_None v then
      if bool_decide (k ∈ Settings.fields \/ k ∈ Settings.DUNDER_ATTRIBUTES)
      then SettingsGetter.set kwargs
             (SettingsGetter.mk (<[k := v]> (SettingsGetter.settings self)))
      else (self, Raised ValueError)
    else SettingsGetter.set kwargs self.
Proof.
  destruct self as [s]. unfold SettingsGetter.set. cbn [for_each].
  unfold bind at 1. destruct (Settings.is_not_None v); [|reflexivity].
  unfold on_attr, Settings.setattr. cbn [SettingsGetter.settings].
  destruct (bool_decide_reflect (k ∈ Settings.DUNDER_ATTRIBUTES)) as [Hd|Hd].
  - rewrite bool_decide_eq_true_2 by (right; exact Hd). reflexivity.
  - destruct (bool_decide_reflect (k ∈ Settings.fields)) as [Hf|Hf].
    + rewrite bool_decide_eq_true_2 by (left; exact Hf). reflexivity.
    + rewrite bool_decide_eq_false_2 by (intros [?|?]; contradiction). reflexivity.
Qed.

Lemma SettingsGetter_set_run (kwargs : list (string * Settings.value)) :
  NoDup kwargs.*1 ->
  forall self : SettingsGetter.t,
    (forall k, (forall v, (k, v) ∈ kwargs -> v = Settings.None_) ->
       SettingsGetter.settings (state (SettingsGetter.set kwargs self)) !! k
       = SettingsGetter.settings self !! k)
    /\ (result (SettingsGetter.set kwargs self) = Returned tt
        <-> forall k v, (k, v) ∈ kwargs -> v <> Settings.None_ -> assignable k)
    /\ (result (SettingsGetter.set kwargs self) = Returned tt
        \/ result (SettingsGetter.set kwargs self) = Raised ValueError)
    /\ (result (SettingsGetter.set kwargs self) = Returned tt ->
        forall k v, (k, v) ∈ kwargs -> v <> Settings.None_ ->
          SettingsGetter.settings (state (SettingsGetter.set kwargs self)) !! k = Some v).
Proof.
  induction kwargs as [|[k0 v0] kwargs IH]; intros Hnd self.
  - cbn. repeat split; auto; intros; try tauto.
    + exfalso. eapply not_elem_of_nil; eassumption.
    + exfalso. eapply not_elem_of_nil; eassumption.
  - cbn [fmap list_fmap fst] in Hnd. apply NoDup_cons in Hnd as [Hk0 Hnd].
    rewrite SettingsGetter_set_cons.
    destruct (Settings.is_not_None v0) eqn:Ev.
    + apply is_not_None_spec in Ev.
      destruct (bool_decide_reflect
                  (k0 ∈ Settings.fields \/ k0 ∈ Settings.DUNDER_ATTRIBUTES)) as [Hf|Hf].
      * destruct (IH Hnd (SettingsGetter.mk (<[k0 := v0]> (SettingsGetter.settings self))))
          as (I1 & I2 & I3 & I4).
        cbn [SettingsGetter.settings] in I1.
        split; [|split; [|split]].
        -- intros k Hk. rewrite I1.
           ++ apply lookup_insert_ne. intros ->. apply Ev, Hk. left.
           ++ intros v Hv. apply Hk. right. exact Hv.
        -- rewrite I2. split.
           ++ intros H k v Hkv Hv. apply elem_of_cons in Hkv as [E|Hkv].
              ** injection E as -> ->. exact Hf.
              ** eapply H; eassumption.
           ++ intros H k v Hkv Hv. apply (H k v); [right; exact Hkv | exact Hv].
        -- exact I3.
        -- intros Hr k v Hkv Hv. apply elem_of_cons in Hkv as [E|Hkv].
           ++ injection E as -> ->. rewrite I1.
              ** apply lookup_insert_eq.
              ** intros v Hv'. exfalso. apply Hk0. apply list_elem_of_fmap.
                 exists (k0, v). split; [reflexivity | exact Hv'].
           ++ apply I4; assumption.
      * cbn [state result fst snd]. split; [|split; [|split]].
        -- reflexivity.
        -- split; [discriminate|]. intros H. exfalso. apply Hf.
           apply (H k0 v0); [left | exact Ev].
        -- right. reflexivity.
        -- discriminate.
    + assert (Ev' : v0 = Settings.None_).
      { destruct v0; cbn in Ev; congruence. }
      subst v0. destruct (IH Hnd self) as (I1 & I2 & I3 & I4).
      split; [|split; [|split]].
      * intros k Hk. apply I1. intros v Hv. apply Hk. right. exact Hv.
      * rewrite I2. split.
        -- intros H k v Hkv Hv. apply elem_of_cons in Hkv as [E|Hkv].
           ++ injection E as -> ->. congruence.
           ++ eapply H; eassumption.
        -- intros H k v Hkv Hv. apply (H k v); [right; exact Hkv | exact Hv].
      * exact I3.
      * intros Hr k v Hkv Hv. apply elem_of_cons in Hkv as [E|Hkv].
        -- injection E as -> ->. congruence.
        -- apply I4; assumption.
Qed.

(** C9.  [SettingsGetter.set] given keyword overrides: an attribute whose
    override is [None] or that has no override keeps its prior value,
    whether the call returns or raises; the call returns exactly when every
    override that is not [None] names a declared field or one of the names
    handed to [object.__setattr__], and it returns or raises a ValueError;
    when it returns, so when every override that is not [None] names a
    declared field, every name passed with a value that is not [None] holds
    that value. *)
Theorem set_overrides_non_null_only
    (kwargs : list (string * Settings.value)) (self : SettingsGetter.t) :
  NoDup kwargs.*1 ->
  (forall k, (forall v, (k, v) ∈ kwargs -> v = Settings.None_) ->
     SettingsGetter.call (state (SettingsGetter.set kwargs self)) !! k
     = SettingsGetter.call self !! k)
  /\ (result (SettingsGetter.set kwargs self) = Returned tt
      <-> forall k v, (k, v) ∈ kwargs -> v <> Settings.None_ -> assignable k)
  /\ (result (SettingsGetter.set kwargs self) = Returned tt
      \/ result (SettingsGetter.set kwargs self) = Raised ValueError)
  /\ (result (SettingsGetter.set kwargs self) = Returned tt ->
      forall k v, (k, v) ∈ kwargs -> v <> Settings.None_ ->
        SettingsGetter.call (state (SettingsGetter.set kwargs self)) !! k = Some v)
  /\ ((forall k v, (k, v) ∈ kwargs -> v <> Settings.None_ -> k ∈ Settings.fields) ->
      result (SettingsGetter.set kwargs self) = Returned tt
      /\ forall k v, (k, v) ∈ kwargs -> v <> Settings.None_ ->
           SettingsGetter.call (state (SettingsGetter.set kwargs self)) !! k = Some v).
Proof.
  intros Hnd. destruct (SettingsGetter_set_run kwargs Hnd self) as (H1 & H2 & H3 & H4).
  unfold SettingsGetter.call. split; [exact H1|]. split; [exact H2|].
  split; [exact H3|]. split; [exact H4|].
  intros Hf.
  assert (Hr : result (SettingsGetter.set kwargs self) = Returned tt).
  { apply H2. intros k v Hkv Hv. left. exact (Hf k v Hkv Hv). }
  split; [exact Hr | exact (H4 Hr)].
Qed.

Lemma set_overrides_non_null_only_witness :
  NoDup [("ALLOW_MISSING_TL_GROUPS", Settings.Bool false);
         ("ALLOW_INCOMPLETE_META_DATA", Settings.None_)].*1
  /\ SettingsGetter.call
       (state (SettingsGetter.set
                 [("ALLOW_MISSING_TL_GROUPS", Settings.Bool false);
                  ("ALLOW_INCOMPLETE_META_DATA", Settings.None_)]
                 (SettingsGetter.mk Settings.default)))
     !! "ALLOW_INCOMPLETE_META_DATA"
     = SettingsGetter.call (SettingsGetter.mk Settings.default)
       !! "ALLOW_INCOMPLETE_META_DATA".
Proof.
  assert (Hnd : NoDup [("ALLOW_MISSING_TL_GROUPS", Settings.Bool false);
                       ("ALLOW_INCOMPLETE_META_DATA", Settings.None_)].*1).
  { cbn. apply NoDup_cons. split; [|apply NoDup_singleton].
    intros H. apply list_elem_of_singleton in H. discriminate H. }
  split; [exact Hnd|].
  apply (proj1 (set_overrides_non_null_only _ (SettingsGetter.mk Settings.default) Hnd)).
  intros v Hv. apply elem_of_cons in Hv as [E|Hv].
  - discriminate E.
  - apply list_elem_of_singleton in Hv. congruence.
Defined.

(** *** Claims about saving and loading *)







Lemma astype_int_wraps (z : Z) : 2 ^ 63 <= z < 2 ^ 64 -> astype_int z = z - 2 ^ 64.
Proof.
  unfold astype_int. intros Hz.
  replace (z + 2 ^ 63) with (z - 2 ^ 63 + 1 * 2 ^ 64) by lia.
  rewrite Z.mod_add by lia. rewrite Z.mod_small by lia. lia.
Qed.






(** No call of [set] gives the settings an attribute that [setattr] does not
    assign, as [hdf5_compress_args]: with the settings as declared,
    [to_hdf5] stops at the first lookup of [hdf5_compress_args]. *)
Lemma set_keeps_undeclared (kwargs : list (string * Settings.value))
    (self : SettingsGetter.t) (k : string) :
  ~ assignable k ->
  SettingsGetter.call (state (SettingsGetter.set kwargs self)) !! k
  = SettingsGetter.call self !! k.
Proof.
  intros Hk. revert self. induction kwargs as [|[k0 v0] kwargs IH]; intros self.
  - reflexivity.
  - rewrite SettingsGetter_set_cons. destruct (Settings.is_not_None v0); [|apply IH].
    destruct (bool_decide_reflect (k0 ∈ Settings.fields \/ k0 ∈ Settings.DUNDER_ATTRIBUTES))
      as [Hf|Hf]; [|reflexivity].
    rewrite IH. unfold SettingsGetter.call. cbn [SettingsGetter.settings].
    apply lookup_insert_ne. intros ->. contradiction.
Qed.

Lemma not_in_list (k : string) (l : list string) :
  forallb (fun x => negb (String.eqb x k)) l = true -> k ∉ l.
Proof.
  induction l as [|x l IH]; cbn [forallb]; intros H Hin.
  - inversion Hin.
  - apply andb_true_iff in H as [Hx Hl]. apply elem_of_cons in Hin as [->|Hin].
    + rewrite String.eqb_refl in Hx. discriminate Hx.
    + exact (IH Hl Hin).
Qed.

Lemma hdf5_compress_args_not_assignable : ~ assignable "hdf5_compress_args".
Proof. intros [H|H]; revert H; apply not_in_list; reflexivity. Qed.

Lemma to_hdf5_declared_settings (kwargs : list (string * Settings.value))
    (o : Object.t) (group : h5py.Group) :
  h5py.members group = ∅ ->
  result (Object.to_hdf5
            (state (SettingsGetter.set kwargs (SettingsGetter.mk Settings.default)))
            o group)
  = Raised AttributeError.
Proof.
  intros Hg.
  assert (Hnone : forall S,
    hdf5_compress_args (S := S)
      (state (SettingsGetter.set kwargs (SettingsGetter.mk Settings.default)))
    = raise AttributeError).
  { intros S. unfold hdf5_compress_args, Settings.getattr.
    rewrite set_keeps_undeclared by exact hdf5_compress_args_not_assignable.
    reflexivity. }
  destruct group as [gname gattrs gmembers]. cbn in Hg. subst gmembers.
  unfold Object.to_hdf5. rewrite !Hnone. destruct o. reflexivity.
Qed.




(** *** Further properties of the cut *)

Lemma slice_slice {A} (l : list A) (b1 d1 b2 d2 : Z) :
  0 <= b1 -> b1 <= d1 -> 0 <= b2 -> b2 <= d2 -> d2 <= d1 - b1 ->
  slice (slice l b1 (d1 + 1)) b2 (d2 + 1) = slice l (b1 + b2) (b1 + d2 + 1).
Proof.
  intros H1 H2 H3 H4 H5. apply list_eq. intros i.
  rewrite !slice_inclusive_lookup by lia.
  repeat case_decide; try lia; try reflexivity.
  f_equal. lia.
Qed.

Lemma slice_all {A} (l : list A) (n : Z) :
  len l <= n + 1 -> 0 <= n -> slice l 0 (n + 1) = l.
Proof.
  intros Hl Hn. rewrite slice_inclusive by lia.
  cbn [Z.to_nat drop]. apply take_ge. unfold len in Hl. lia.
Qed.

Lemma ValVar_cut_state (v : ValVar.t) (birth death : Z) :
  fst (ValVar.cut_to_timespan birth death v)
  = ValVar.mk (slice (ValVar.val v) birth (death + 1))
              (slice (ValVar.var v) birth (death + 1)).
Proof. reflexivity. Qed.

Lemma cut_fields_compose (o : Object.t) (oc oc' : ObjectClassification.t)
    (b1 d1 b2 d2 : Z) :
  0 <= b1 -> b1 <= d1 -> 0 <= b2 -> b2 <= d2 -> d2 <= d1 - b1 ->
  cut_fields b2 d2 (cut_fields b1 d1 o oc) oc' = cut_fields (b1 + b2) (b1 + d2) o oc'.
Proof.
  intros H1 H2 H3 H4 H5. unfold cut_fields.
  cbn [Object.id Object.birth_stamp Object.heading Object.width Object.height
       Object.length Object.rcs Object.age Object.tracking_point
       Object.confidence_of_existence Object.movement_classification Object.meas_state
       Object.dist_longitudinal Object.dist_lateral Object.dist_z
       Object.rel_vel_longitudinal Object.rel_vel_lateral Object.abs_vel_longitudinal
       Object.abs_vel_lateral Object.rel_acc_longitudinal Object.rel_acc_lateral
       Object.abs_acc_longitudinal Object.abs_acc_lateral].
  rewrite !ValVar_cut_state. cbn [ValVar.val ValVar.var].
  rewrite !slice_slice by assumption. rewrite Z.add_assoc. reflexivity.
Qed.

Lemma fits_slice {A} (l : list A) (b1 d1 d2 : Z) :
  0 <= b1 -> b1 <= d1 -> d2 <= d1 - b1 ->
  fits l d1 = true -> fits (slice l b1 (d1 + 1)) d2 = true.
Proof.
  intros H1 H2 H3 Hf. apply fits_spec in Hf as [->|Hl].
  - rewrite slice_nil. reflexivity.
  - apply fits_long. rewrite slice_inclusive_full by assumption. lia.
Qed.

Lemma fits_earlier {A} (l : list A) (d d' : Z) :
  d' <= d -> fits l d = true -> fits l d' = true.
Proof.
  intros Hd Hf. apply fits_spec. apply fits_spec in Hf as [->|Hl]; [left|right]; auto. lia.
Qed.

Lemma ObjectClassification_cut_returns (oc : ObjectClassification.t) (birth death : Z) :
  0 <= birth -> birth <= death ->
  result (ObjectClassification.cut_to_timespan birth death oc) = Returned tt ->
  fits (ObjectClassification.val oc) death = true
  /\ fits (ObjectClassification.confidence oc) death = true.
Proof.
  intros Hb Hd. rewrite ObjectClassification_cut_run by assumption.
  destruct (fits (ObjectClassification.val oc) death);
    [destruct (fits (ObjectClassification.confidence oc) death)|];
    cbn; intros H; try discriminate H; split; reflexivity.
Qed.

(** X1.  Two cuts in a row are one cut.  When [cut_to_timespan(b1, d1)] has
    returned, [cut_to_timespan(b2, d2)] with [0 <= b2 <= d2 <= d1 - b1] on the
    object it left returns too and leaves the very object that the single
    call [cut_to_timespan(b1 + b2, b1 + d2)] leaves of the original. *)
Theorem cut_composes (o : Object.t) (b1 d1 b2 d2 : Z) :
  0 <= b1 -> b1 <= d1 -> d1 < Object.len o ->
  0 <= b2 -> b2 <= d2 -> d2 <= d1 - b1 ->
  result (Object.cut_to_timespan b1 d1 o) = Returned tt ->
  Object.cut_to_timespan b2 d2 (state (Object.cut_to_timespan b1 d1 o))
  = Object.cut_to_timespan (b1 + b2) (b1 + d2) o
  /\ result (Object.cut_to_timespan (b1 + b2) (b1 + d2) o) = Returned tt.
Proof.
  intros H1 H2 Hl H3 H4 H5 Hr.
  rewrite (Object_cut_run o b1 d1) in * by assumption.
  cbn [state result fst snd] in *.
  apply ObjectClassification_cut_returns in Hr as [Fv Fc]; [|assumption..].
  rewrite (ObjectClassification_cut_run _ b1 d1), Fv, Fc by assumption.
  cbn [fst snd].
  rewrite (Object_cut_run o (b1 + b2) (b1 + d2)) by lia.
  rewrite Object_cut_run; [|assumption..|].
  2:{ unfold Object.len, cut_fields. cbn [Object.dist_lateral].
      rewrite ValVar_cut_state. cbn [ValVar.val].
      rewrite slice_inclusive_full by assumption. lia. }
  cbn [cut_fields Object.object_classification].
  rewrite !ObjectClassification_cut_run by lia.
  destruct (Object.object_classification o) as [val conf].
  cbn [ObjectClassification.val ObjectClassification.confidence
       ObjectClassification.set_val ObjectClassification.set_confidence] in *.
  rewrite !fits_slice by assumption.
  rewrite !(fits_earlier _ d1 (b1 + d2)) by (assumption || lia).
  cbn [fst snd]. rewrite !slice_slice by assumption.
  split; [|reflexivity]. f_equal.
  apply (cut_fields_compose o (ObjectClassification.mk val conf)); assumption.
Qed.

Lemma cut_composes_witness :
  (0 <= 1 /\ 1 <= 3 /\ 3 < Object.len sample_object /\ 0 <= 1 /\ 1 <= 2 /\ 2 <= 3 - 1
   /\ result (Object.cut_to_timespan 1 3 sample_object) = Returned tt)
  /\ Object.cut_to_timespan 1 2 (state (Object.cut_to_timespan 1 3 sample_object))
     = Object.cut_to_timespan (1 + 1) (1 + 2) sample_object.
Proof.
  assert (H1 : 0 <= 1) by lia.
  assert (H2 : 1 <= 3) by lia.
  assert (H3 : 3 < Object.len sample_object) by reflexivity.
  assert (H4 : 1 <= 2) by lia.
  assert (H5 : 2 <= 3 - 1) by lia.
  assert (H6 : result (Object.cut_to_timespan 1 3 sample_object) = Returned tt)
    by reflexivity.
  split; [repeat split; assumption|].
  exact (proj1 (cut_composes sample_object 1 3 1 2 H1 H2 H3 H1 H4 H5 H6)).
Defined.

Lemma Object_len_cut_fields (o : Object.t) (oc : ObjectClassification.t) (birth death : Z) :
  Object.len (cut_fields birth death o oc)
  = len (slice (ValVar.val (Object.dist_lateral o)) birth (death + 1)).
Proof. reflexivity. Qed.

(** X2.  The cut to the whole extent changes nothing.  For an object of at
    least one sample whose time-indexed sequences all have [len] elements,
    [cut_to_timespan(0, len - 1)] returns and leaves the object as it was. *)
Theorem cut_whole_extent_identity (o : Object.t) :
  0 < Object.len o ->
  Forall (fun n => n = Object.len o) (time_indexed_lengths o) ->
  Object.cut_to_timespan 0 (Object.len o - 1) o = (o, Returned tt).
Proof.
  intros Hpos Hall.
  rewrite Object_cut_run, ObjectClassification_cut_run by lia.
  unfold cut_fields. rewrite !ValVar_cut_state.
  destruct o. unfold time_indexed_lengths, ValVar_lengths, Object.len in *.
  destruct object_classification as [labels confidence].
  repeat match goal with v : ValVar.t |- _ => destruct v end.
  cbn [Object.id Object.birth_stamp Object.heading Object.width Object.height
       Object.length Object.rcs Object.age Object.tracking_point
       Object.confidence_of_existence Object.movement_classification Object.meas_state
       Object.dist_longitudinal Object.dist_lateral Object.dist_z
       Object.rel_vel_longitudinal Object.rel_vel_lateral Object.abs_vel_longitudinal
       Object.abs_vel_lateral Object.rel_acc_longitudinal Object.rel_acc_lateral
       Object.abs_acc_longitudinal Object.abs_acc_lateral Object.object_classification
       ObjectClassification.val ObjectClassification.confidence
       ObjectClassification.set_val ObjectClassification.set_confidence
       ValVar.val ValVar.var app] in *.
  split_Forall Hall.
  rewrite !fits_long by lia.
  rewrite !slice_all by lia.
  rewrite Z.add_0_r. reflexivity.
Qed.

Lemma cut_whole_extent_identity_witness :
  (0 < Object.len sample_object
   /\ Forall (fun n => n = Object.len sample_object) (time_indexed_lengths sample_object))
  /\ Object.cut_to_timespan 0 (5 - 1) sample_object = (sample_object, Returned tt).
Proof.
  assert (H1 : 0 < Object.len sample_object) by reflexivity.
  assert (H2 : Forall (fun n => n = Object.len sample_object)
                 (time_indexed_lengths sample_object))
    by (repeat (constructor; [reflexivity|]); constructor).
  split; [auto|]. exact (cut_whole_extent_identity sample_object H1 H2).
Defined.

Lemma ObjectClassification_cut_refused (oc : ObjectClassification.t) (birth death : Z) :
  birth < 0 \/ death < birth ->
  ObjectClassification.cut_to_timespan birth death oc = (oc, Raised AssertionError).
Proof.
  intros H. unfold ObjectClassification.cut_to_timespan, assert.
  destruct (Z.geb_spec birth 0) as [Hb|Hb]; [|reflexivity].
  rewrite bind_ret.
  destruct (Z.leb_spec birth death) as [Hd|Hd]; [lia|reflexivity].
Qed.

Lemma fits_short {A} (l : list A) (death : Z) :
  l <> [] -> len l <= death -> fits l death = false.
Proof.
  intros Hne Hl. apply not_true_iff_false. intros H.
  apply fits_spec in H as [H|H]; [contradiction | lia].
Qed.

(** X3.  A failing cut of a classification is not undone.  With
    [birth < 0] or [birth > death], or with a non-empty label sequence that
    has no element at index [death], the call raises and the classification
    is as before; but when the labels pass and it is the non-empty
    confidence sequence that has no element at index [death], the call
    raises after the labels have been trimmed, and leaves them trimmed
    beside the untouched confidence sequence. *)
Theorem classification_cut_failure (oc : ObjectClassification.t) (birth death : Z) :
  (birth < 0 \/ death < birth ->
   ObjectClassification.cut_to_timespan birth death oc = (oc, Raised AssertionError))
  /\ (0 <= birth -> birth <= death ->
      ObjectClassification.val oc <> [] -> len (ObjectClassification.val oc) <= death ->
      ObjectClassification.cut_to_timespan birth death oc = (oc, Raised AssertionError))
  /\ (0 <= birth -> birth <= death ->
      ObjectClassification.val oc = [] \/ death < len (ObjectClassification.val oc) ->
      ObjectClassification.confidence oc <> [] ->
      len (ObjectClassification.confidence oc) <= death ->
      ObjectClassification.cut_to_timespan birth death oc
      = (ObjectClassification.mk
           (slice (ObjectClassification.val oc) birth (death + 1))
           (ObjectClassification.confidence oc),
         Raised AssertionError)).
Proof.
  split; [apply ObjectClassification_cut_refused|]. split.
  - intros Hb Hd Hne Hl. rewrite ObjectClassification_cut_run by assumption.
    rewrite fits_short by assumption. reflexivity.
  - intros Hb Hd Hv Hne Hl. rewrite ObjectClassification_cut_run by assumption.
    rewrite (proj2 (fits_spec _ _) Hv), fits_short by assumption. reflexivity.
Qed.

Lemma classification_cut_failure_witness :
  (0 <= 1 /\ 1 <= 3)
  /\ ObjectClassification.cut_to_timespan 1 3
       (ObjectClassification.mk [1; 1; 2; 2; 1] [0.5%float])
     = (ObjectClassification.mk [1; 2; 2] [0.5%float], Raised AssertionError).
Proof.
  assert (H1 : 0 <= 1) by lia.
  assert (H2 : 1 <= 3) by lia.
  split; [auto|].
  apply (proj2 (proj2 (classification_cut_failure
                         (ObjectClassification.mk [1; 1; 2; 2; 1] [0.5%float]) 1 3)) H1 H2).
  - right. reflexivity.
  - discriminate.
  - vm_compute. discriminate.
Defined.

(** X4.  A cut of an object that fails in the classification is not undone.
    When the three tests of [Object.cut_to_timespan] pass but a non-empty
    sequence of the classification has no element at index [death], the
    call raises an AssertionError only after the birth stamp has been
    shifted and every other time-indexed attribute cut: the object it
    leaves has the new birth stamp, [death - birth + 1] samples and the
    sliced raw sequences, and differs from the original when [birth > 0]. *)
Theorem cut_failure_leaves_object_cut (o : Object.t) (birth death : Z) :
  0 <= birth -> birth <= death -> death < Object.len o ->
  (ObjectClassification.val (Object.object_classification o) <> []
   /\ len (ObjectClassification.val (Object.object_classification o)) <= death)
  \/ (ObjectClassification.confidence (Object.object_classification o) <> []
      /\ len (ObjectClassification.confidence (Object.object_classification o)) <= death) ->
  let r := Object.cut_to_timespan birth death o in
  result r = Raised AssertionError
  /\ Object.birth_stamp (state r) = Object.birth_stamp o + birth
  /\ Object.len (state r) = death - birth + 1
  /\ Object.rcs (state r) = slice (Object.rcs o) birth (death + 1)
  /\ Object.age (state r) = slice (Object.age o) birth (death + 1)
  /\ Object.tracking_point (state r) = slice (Object.tracking_point o) birth (death + 1)
  /\ Object.confidence_of_existence (state r)
     = slice (Object.confidence_of_existence o) birth (death + 1)
  /\ Object.movement_classification (state r)
     = slice (Object.movement_classification o) birth (death + 1)
  /\ Object.meas_state (state r) = slice (Object.meas_state o) birth (death + 1)
  /\ (0 < birth -> state r <> o).
Proof.
  intros Hb Hd Hl Hshort r. subst r.
  rewrite Object_cut_run by assumption. cbn [state result fst snd].
  split.
  - rewrite ObjectClassification_cut_run by assumption.
    destruct Hshort as [[Hne Hs]|[Hne Hs]].
    + rewrite fits_short by assumption. reflexivity.
    + rewrite (fits_short _ _ Hne Hs).
      destruct (fits (ObjectClassification.val (Object.object_classification o)) death);
        reflexivity.
  - rewrite Object_len_cut_fields.
    rewrite slice_inclusive_full by (assumption || exact Hl).
    repeat split; try reflexivity.
    intros Hpos H. apply (f_equal Object.birth_stamp) in H.
    cbn [cut_fields Object.birth_stamp] in H. lia.
Qed.

Lemma cut_failure_leaves_object_cut_witness :
  (0 <= 1 /\ 1 <= 3 /\ 3 < Object.len sample_object
   /\ ((ObjectClassification.val
          (Object.object_classification
             (Object.set_object_classification
                (ObjectClassification.mk [1; 1] []) sample_object)) <> []
        /\ len (ObjectClassification.val
                  (Object.object_classification
                     (Object.set_object_classification
                        (ObjectClassification.mk [1; 1] []) sample_object))) <= 3)
       \/ (ObjectClassification.confidence
             (Object.object_classification
                (Object.set_object_classification
                   (ObjectClassification.mk [1; 1] []) sample_object)) <> []
           /\ len (ObjectClassification.confidence
                     (Object.object_classification
                        (Object.set_object_classification
                           (ObjectClassification.mk [1; 1] []) sample_object))) <= 3)))
  /\ result (Object.cut_to_timespan 1 3
               (Object.set_object_classification
                  (ObjectClassification.mk [1; 1] []) sample_object))
     = Raised AssertionError
  /\ Object.birth_stamp
       (state (Object.cut_to_timespan 1 3
                 (Object.set_object_classification
                    (ObjectClassification.mk [1; 1] []) sample_object)))
     = 10 + 1.
Proof.
  assert (H1 : 0 <= 1) by lia.
  assert (H2 : 1 <= 3) by lia.
  assert (H3 : 3 < Object.len (Object.set_object_classification
                                 (ObjectClassification.mk [1; 1] []) sample_object))
    by reflexivity.
  assert (H4 : (ObjectClassification.val
          (Object.object_classification
             (Object.set_object_classification
                (ObjectClassification.mk [1; 1] []) sample_object)) <> []
        /\ len (ObjectClassification.val
                  (Object.object_classification
                     (Object.set_object_classification
                        (ObjectClassification.mk [1; 1] []) sample_object))) <= 3)
       \/ (ObjectClassification.confidence
             (Object.object_classification
                (Object.set_object_classification
                   (ObjectClassification.mk [1; 1] []) sample_object)) <> []
           /\ len (ObjectClassification.confidence
                     (Object.object_classification
                        (Object.set_object_classification
                           (ObjectClassification.mk [1; 1] []) sample_object))) <= 3)).
  { left. split; [discriminate | vm_compute; discriminate]. }
  pose proof (cut_failure_leaves_object_cut _ 1 3 H1 H2 H3 H4) as (R1 & R2 & _).
  split; [repeat split; try assumption; reflexivity|]. split; [exact R1 | exact R2].
Defined.

(** X5.  A cut narrows the global extent of the object and never widens the
    windows it is found in.  After [cut_to_timespan(birth, death)] with
    [0 <= birth <= death < len], [end] is the old birth stamp plus
    [death + 1], the extent lies within the old one, and [in_timespan] holds
    of the object left exactly for the windows that reach the global indices
    from [birth_stamp + birth] to [birth_stamp + death], all of which the
    original object was in. *)
Theorem cut_narrows_extent (o : Object.t) (birth death : Z) :
  0 <= birth -> birth <= death -> death < Object.len o ->
  let o' := state (Object.cut_to_timespan birth death o) in
  Object.end_ o' = Object.birth_stamp o + death + 1
  /\ Object.birth_stamp o <= Object.birth_stamp o'
  /\ Object.end_ o' <= Object.end_ o
  /\ (forall b d, Object.in_timespan o' b d = true
        <-> Object.birth_stamp o + birth <= d /\ b <= Object.birth_stamp o + death)
  /\ (forall b d, Object.in_timespan o' b d = true -> Object.in_timespan o b d = true).
Proof.
  intros Hb Hd Hl o'. subst o'.
  rewrite Object_cut_run by assumption. cbn [state fst].
  assert (Hlen : Object.len (cut_fields birth death o
                    (fst (ObjectClassification.cut_to_timespan birth death
                            (Object.object_classification o))))
                 = death - birth + 1).
  { rewrite Object_len_cut_fields. apply slice_inclusive_full; assumption. }
  assert (Hin : forall x b d, Object.in_timespan x b d = true
            <-> b < Object.birth_stamp x + Object.len x /\ Object.birth_stamp x <= d).
  { intros x b d. unfold Object.in_timespan, Object.len.
    rewrite andb_true_iff, Z.ltb_lt, Z.geb_le. reflexivity. }
  assert (Hin' : forall b d,
            Object.in_timespan (cut_fields birth death o
                    (fst (ObjectClassification.cut_to_timespan birth death
                            (Object.object_classification o)))) b d = true
            <-> Object.birth_stamp o + birth <= d /\ b <= Object.birth_stamp o + death).
  { intros b d. rewrite Hin, Hlen. cbn [cut_fields Object.birth_stamp]. lia. }
  unfold Object.end_. rewrite Hlen. cbn [cut_fields Object.birth_stamp].
  split; [lia|]. split; [lia|]. split; [lia|]. split; [exact Hin'|].
  intros b d H. apply Hin' in H. apply Hin. lia.
Qed.

Lemma cut_narrows_extent_witness :
  (0 <= 1 /\ 1 <= 3 /\ 3 < Object.len sample_object)
  /\ Object.end_ (state (Object.cut_to_timespan 1 3 sample_object)) = 10 + 3 + 1.
Proof.
  assert (H1 : 0 <= 1) by lia.
  assert (H2 : 1 <= 3) by lia.
  assert (H3 : 3 < Object.len sample_object) by reflexivity.
  split; [auto|]. exact (proj1 (cut_narrows_extent sample_object 1 3 H1 H2 H3)).
Defined.

(** *** Further properties of the settings *)

Lemma for_each_app {S X} (xs ys : list X) (body : X -> Exec S unit) (s : S) :
  for_each (xs ++ ys) body s = bind (for_each xs body) (fun _ => for_each ys body) s.
Proof.
  revert s. induction xs as [|x xs IH]; intros s; cbn [app for_each].
  - reflexivity.
  - rewrite bind_bind. unfold bind at 1 2.
    destruct (body x s) as [s' [[]|e]]; [apply IH | reflexivity].
Qed.

Lemma SettingsGetter_set_app (kwargs1 kwargs2 : list (string * Settings.value))
    (self : SettingsGetter.t) :
  SettingsGetter.set (kwargs1 ++ kwargs2) self
  = match SettingsGetter.set kwargs1 self with
    | (s', Returned _) => SettingsGetter.set kwargs2 s'
    | (s', Raised e) => (s', Raised e)
    end.
Proof. unfold SettingsGetter.set. rewrite for_each_app. reflexivity. Qed.

(** X6.  Overrides given together act as overrides given one call after the
    other.  [set] on the items of two keyword dictionaries in a row is [set]
    on the first followed by [set] on the second when the first returns, and
    when the first raises nothing of the second is applied. *)
Theorem set_composes (kwargs1 kwargs2 : list (string * Settings.value))
    (self : SettingsGetter.t) :
  (result (SettingsGetter.set kwargs1 self) = Returned tt ->
   SettingsGetter.set (kwargs1 ++ kwargs2) self
   = SettingsGetter.set kwargs2 (state (SettingsGetter.set kwargs1 self)))
  /\ (forall e, result (SettingsGetter.set kwargs1 self) = Raised e ->
      SettingsGetter.set (kwargs1 ++ kwargs2) self = SettingsGetter.set kwargs1 self).
Proof.
  rewrite SettingsGetter_set_app.
  destruct (SettingsGetter.set kwargs1 self) as [s' [[]|e]]; cbn [state result fst snd].
  - split; [reflexivity | discriminate].
  - split; [discriminate | reflexivity].
Qed.

(** X7.  An override that is not [None] for a name that [Settings] does not
    declare and that is not one of the names handed to [object.__setattr__]
    stops [set] with a ValueError where it stands among the keyword items:
    the overrides before it have been applied, the ones after it never
    are. *)
Theorem set_stops_at_undeclared (before after : list (string * Settings.value))
    (k : string) (v : Settings.value) (self : SettingsGetter.t) :
  k ∉ Settings.fields -> k ∉ Settings.DUNDER_ATTRIBUTES -> v <> Settings.None_ ->
  result (SettingsGetter.set before self) = Returned tt ->
  SettingsGetter.set (before ++ (k, v) :: after) self
  = (state (SettingsGetter.set before self), Raised ValueError).
Proof.
  intros Hk Hd Hv Hr. rewrite SettingsGetter_set_app.
  destruct (SettingsGetter.set before self) as [s' [[]|e]];
    cbn [state result fst snd] in *; [|discriminate Hr].
  rewrite SettingsGetter_set_cons.
  rewrite (proj2 (is_not_None_spec v) Hv).
  rewrite bool_decide_eq_false_2 by (intros [?|?]; contradiction). reflexivity.
Qed.

Lemma set_stops_at_undeclared_witness :
  (("hdf5_compress_args" ∉ Settings.fields)
   /\ ("hdf5_compress_args" ∉ Settings.DUNDER_ATTRIBUTES)
   /\ Settings.Dict [] <> Settings.None_
   /\ result (SettingsGetter.set [("ALLOW_MISSING_TL_GROUPS", Settings.Bool false)]
                (SettingsGetter.mk Settings.default)) = Returned tt)
  /\ SettingsGetter.set
       ([("ALLOW_MISSING_TL_GROUPS", Settings.Bool false)]
        ++ ("hdf5_compress_args", Settings.Dict [])
           :: [("ALLOW_INCOMPLETE_META_DATA", Settings.Bool false)])
       (SettingsGetter.mk Settings.default)
     = (state (SettingsGetter.set [("ALLOW_MISSING_TL_GROUPS", Settings.Bool false)]
                 (SettingsGetter.mk Settings.default)),
        Raised ValueError).
Proof.
  assert (H1 : "hdf5_compress_args" ∉ Settings.fields)
    by (apply not_in_list; reflexivity).
  assert (Hd : "hdf5_compress_args" ∉ Settings.DUNDER_ATTRIBUTES)
    by (apply not_in_list; reflexivity).
  assert (H2 : Settings.Dict [] <> Settings.None_) by discriminate.
  assert (H3 : result (SettingsGetter.set [("ALLOW_MISSING_TL_GROUPS", Settings.Bool false)]
                         (SettingsGetter.mk Settings.default)) = Returned tt)
    by reflexivity.
  split; [auto|].
  exact (set_stops_at_undeclared _ _ _ _ _ H1 Hd H2 H3).
Defined.

Lemma override_of_key (kwargs : list (string * Settings.value)) (k : string) :
  (forall v, (k, v) ∈ kwargs -> v = Settings.None_)
  \/ (exists v, (k, v) ∈ kwargs /\ v <> Settings.None_).
Proof.
  induction kwargs as [|[k0 v0] kwargs IH].
  - left. intros v Hv. inversion Hv.
  - destruct IH as [IH|(v & Hv & Hne)].
    + destruct (decide (k0 = k)) as [->|Hk].
      * destruct (Settings.is_not_None v0) eqn:E.
        -- right. exists v0. split; [left | apply is_not_None_spec; exact E].
        -- left. intros v Hv. apply elem_of_cons in Hv as [Heq|Hv]; [|auto].
           injection Heq as ->. destruct v0; cbn in E; congruence.
      * left. intros v Hv. apply elem_of_cons in Hv as [Heq|Hv]; [|auto].
        injection Heq as ? ?. congruence.
    + right. exists v. split; [right; exact Hv | exact Hne].
Qed.

(** X8.  Giving the same overrides again changes nothing.  When [set] has
    returned on keyword items, [set] on the same items applied to the
    settings it left returns and leaves the same settings. *)
Theorem set_idempotent (kwargs : list (string * Settings.value))
    (self : SettingsGetter.t) :
  NoDup kwargs.*1 ->
  result (SettingsGetter.set kwargs self) = Returned tt ->
  SettingsGetter.set kwargs (state (SettingsGetter.set kwargs self))
  = (state (SettingsGetter.set kwargs self), Returned tt).
Proof.
  intros Hnd Hr.
  destruct (SettingsGetter_set_run kwargs Hnd self) as (A1 & A2 & _ & A4).
  destruct (SettingsGetter_set_run kwargs Hnd (state (SettingsGetter.set kwargs self)))
    as (B1 & B2 & _ & B4).
  assert (Hr' : result (SettingsGetter.set kwargs (state (SettingsGetter.set kwargs self)))
                = Returned tt) by (apply B2, A2, Hr).
  destruct (SettingsGetter.set kwargs (state (SettingsGetter.set kwargs self)))
    as [s2 r2] eqn:E2.
  cbn [state result fst snd] in *. subst r2. f_equal.
  destruct s2 as [m2]. destruct (state (SettingsGetter.set kwargs self)) as [m1] eqn:E1.
  cbn [SettingsGetter.settings] in *. f_equal. apply map_eq. intros k.
  destruct (override_of_key kwargs k) as [Hnone|(v & Hv & Hne)].
  - apply B1. exact Hnone.
  - rewrite (B4 eq_refl k v Hv Hne). symmetry. apply (A4 Hr k v Hv Hne).
Qed.

Lemma set_idempotent_witness :
  (NoDup [("ALLOW_MISSING_TL_GROUPS", Settings.Bool false);
          ("ALLOW_INCOMPLETE_META_DATA", Settings.None_)].*1
   /\ result (SettingsGetter.set
                [("ALLOW_MISSING_TL_GROUPS", Settings.Bool false);
                 ("ALLOW_INCOMPLETE_META_DATA", Settings.None_)]
                (SettingsGetter.mk Settings.default)) = Returned tt)
  /\ SettingsGetter.set
       [("ALLOW_MISSING_TL_GROUPS", Settings.Bool false);
        ("ALLOW_INCOMPLETE_META_DATA", Settings.None_)]
       (state (SettingsGetter.set
                 [("ALLOW_MISSING_TL_GROUPS", Settings.Bool false);
                  ("ALLOW_INCOMPLETE_META_DATA", Settings.None_)]
                 (SettingsGetter.mk Settings.default)))
     = (state (SettingsGetter.set
                 [("ALLOW_MISSING_TL_GROUPS", Settings.Bool false);
                  ("ALLOW_INCOMPLETE_META_DATA", Settings.None_)]
                 (SettingsGetter.mk Settings.default)),
        Returned tt).
Proof.
  assert (Hnd : NoDup [("ALLOW_MISSING_TL_GROUPS", Settings.Bool false);
                       ("ALLOW_INCOMPLETE_META_DATA", Settings.None_)].*1).
  { cbn. apply NoDup_cons. split; [|apply NoDup_singleton].
    intros H. apply list_elem_of_singleton in H. discriminate H. }
  assert (Hr : result (SettingsGetter.set
                [("ALLOW_MISSING_TL_GROUPS", Settings.Bool false);
                 ("ALLOW_INCOMPLETE_META_DATA", Settings.None_)]
                (SettingsGetter.mk Settings.default)) = Returned tt) by reflexivity.
  split; [auto|]. exact (set_idempotent _ _ Hnd Hr).
Defined.

Lemma Settings_default_attributes (k : string) :
  is_Some (Settings.default !! k) <-> k ∈ Settings.fields.
Proof.
  unfold Settings.default, Settings.fields. split.
  - intros Hs. destruct (decide (k = "ALLOW_MISSING_TL_GROUPS")) as [->|H1]; [left|].
    destruct (decide (k = "ALLOW_INCOMPLETE_META_DATA")) as [->|H2]; [right; left|].
    rewrite !lookup_insert_ne, lookup_empty in Hs by congruence.
    destruct Hs as [x Hx]. discriminate Hx.
  - intros Hf. apply elem_of_cons in Hf as [->|Hf]; [eexists; reflexivity|].
    apply list_elem_of_singleton in Hf as ->. eexists; reflexivity.
Qed.

Lemma set_keeps_present (kwargs : list (string * Settings.value))
    (self : SettingsGetter.t) (k : string) :
  is_Some (SettingsGetter.call self !! k) ->
  is_Some (SettingsGetter.call (state (SettingsGetter.set kwargs self)) !! k).
Proof.
  revert self. induction kwargs as [|[k0 v0] kwargs IH]; intros self Hs; [exact Hs|].
  rewrite SettingsGetter_set_cons. destruct (Settings.is_not_None v0); [|apply IH, Hs].
  destruct (bool_decide (k0 ∈ Settings.fields \/ k0 ∈ Settings.DUNDER_ATTRIBUTES));
    [|exact Hs].
  apply IH. unfold SettingsGetter.call. cbn [SettingsGetter.settings].
  rewrite lookup_insert. case_decide; [eexists; reflexivity | exact Hs].
Qed.

Lemma set_adds_assignable (kwargs : list (string * Settings.value))
    (self : SettingsGetter.t) (k : string) :
  is_Some (SettingsGetter.call (state (SettingsGetter.set kwargs self)) !! k) ->
  is_Some (SettingsGetter.call self !! k) \/ assignable k.
Proof.
  revert self. induction kwargs as [|[k0 v0] kwargs IH]; intros self Hs; [left; exact Hs|].
  rewrite SettingsGetter_set_cons in Hs.
  destruct (Settings.is_not_None v0); [|apply IH, Hs].
  destruct (bool_decide_reflect (k0 ∈ Settings.fields \/ k0 ∈ Settings.DUNDER_ATTRIBUTES))
    as [Hf|Hf]; [|left; exact Hs].
  apply IH in Hs as [Hs|Hs]; [|right; exact Hs].
  unfold SettingsGetter.call in Hs. cbn [SettingsGetter.settings] in Hs.
  rewrite lookup_insert in Hs. case_decide as Hk; [subst k0; right; exact Hf | left; exact Hs].
Qed.

(** X9.  [set] changes the values of declared fields and of the names handed
    to [object.__setattr__] only.  Any other attribute is left as it was,
    present or absent, and no attribute is ever removed.  So on the settings
    as declared, whatever the overrides and whether the call returns or
    raises, every attribute is a declared field or one of these names, and
    the two declared fields are attributes; and when the call returns, the
    attributes are exactly the declared fields and those of these names, as
    ["__doc__"], that were passed with a value that is not [None]. *)
Theorem set_keeps_attributes (kwargs : list (string * Settings.value))
    (self : SettingsGetter.t) :
  (forall k, ~ assignable k ->
     SettingsGetter.call (state (SettingsGetter.set kwargs self)) !! k
     = SettingsGetter.call self !! k)
  /\ (forall k, is_Some (SettingsGetter.call self !! k) ->
        is_Some (SettingsGetter.call (state (SettingsGetter.set kwargs self)) !! k))
  /\ (forall k,
        is_Some (SettingsGetter.call
                   (state (SettingsGetter.set kwargs (SettingsGetter.mk Settings.default)))
                 !! k)
        -> assignable k)
  /\ (forall k, k ∈ Settings.fields ->
        is_Some (SettingsGetter.call
                   (state (SettingsGetter.set kwargs (SettingsGetter.mk Settings.default)))
                 !! k))
  /\ (NoDup kwargs.*1 ->
      result (SettingsGetter.set kwargs (SettingsGetter.mk Settings.default)) = Returned tt ->
      forall k,
        is_Some (SettingsGetter.call
                   (state (SettingsGetter.set kwargs (SettingsGetter.mk Settings.default)))
                 !! k)
        <-> k ∈ Settings.fields
            \/ (k ∈ Settings.DUNDER_ATTRIBUTES
                /\ exists v, (k, v) ∈ kwargs /\ v <> Settings.None_)).
Proof.
  assert (Hfields : forall k, k ∈ Settings.fields ->
            is_Some (SettingsGetter.call
                       (state (SettingsGetter.set kwargs (SettingsGetter.mk Settings.default)))
                     !! k)).
  { intros k Hf. apply set_keeps_present. apply Settings_default_attributes, Hf. }
  split; [intros k Hk; apply set_keeps_undeclared, Hk|].
  split; [intros k; apply set_keeps_present|].
  split.
  { intros k Hs. apply set_adds_assignable in Hs as [Hs|Hs]; [|exact Hs].
    left. apply Settings_default_attributes, Hs. }
  split; [exact Hfields|].
  intros Hnd Hr k.
  destruct (SettingsGetter_set_run kwargs Hnd (SettingsGetter.mk Settings.default))
    as (A1 & A2 & _ & A4).
  split.
  - intros Hs. destruct (override_of_key kwargs k) as [Hnone|(v & Hv & Hne)].
    + left. unfold SettingsGetter.call in Hs. rewrite (A1 k Hnone) in Hs.
      cbn [SettingsGetter.settings] in Hs. apply Settings_default_attributes, Hs.
    + destruct (proj1 A2 Hr k v Hv Hne) as [Hf|Hd]; [left; exact Hf|].
      right. split; [exact Hd|]. exists v. split; assumption.
  - intros [Hf|(_ & v & Hv & Hne)]; [apply Hfields, Hf|].
    unfold SettingsGetter.call. rewrite (A4 Hr k v Hv Hne). eexists; reflexivity.
Qed.

Lemma set_keeps_attributes_witness :
  (NoDup [("__doc__", Settings.Str "x"); ("ALLOW_MISSING_TL_GROUPS", Settings.None_)].*1
   /\ result (SettingsGetter.set
                [("__doc__", Settings.Str "x"); ("ALLOW_MISSING_TL_GROUPS", Settings.None_)]
                (SettingsGetter.mk Settings.default)) = Returned tt)
  /\ is_Some (SettingsGetter.call
                (state (SettingsGetter.set
                          [("__doc__", Settings.Str "x");
                           ("ALLOW_MISSING_TL_GROUPS", Settings.None_)]
                          (SettingsGetter.mk Settings.default)))
              !! "__doc__").
Proof.
  assert (Hnd : NoDup [("__doc__", Settings.Str "x");
                       ("ALLOW_MISSING_TL_GROUPS", Settings.None_)].*1).
  { cbn. apply NoDup_cons. split; [|apply NoDup_singleton].
    intros H. apply list_elem_of_singleton in H. discriminate H. }
  assert (Hr : result (SettingsGetter.set
                [("__doc__", Settings.Str "x"); ("ALLOW_MISSING_TL_GROUPS", Settings.None_)]
                (SettingsGetter.mk Settings.default)) = Returned tt) by reflexivity.
  split; [auto|].
  apply (proj2 (proj2 (proj2 (proj2 (set_keeps_attributes _ (SettingsGetter.mk Settings.default)))))
           Hnd Hr "__doc__").
  right. split.
  - unfold Settings.DUNDER_ATTRIBUTES. right. right. left.
  - exists (Settings.Str "x"). split; [left | discriminate].
Defined.

(** *** Further properties of saving and loading *)

Lemma hdf5_compress_args_undeclared {S} (kwargs : list (string * Settings.value)) :
  hdf5_compress_args (S := S)
    (state (SettingsGetter.set kwargs (SettingsGetter.mk Settings.default)))
  = raise AttributeError.
Proof.
  unfold hdf5_compress_args, Settings.getattr.
  rewrite set_keeps_undeclared by exact hdf5_compress_args_not_assignable.
  reflexivity.
Qed.

(** X10.  With the settings as [Settings] declares them, whatever overrides
    [set] was given before, saving fails on the lookup of
    [hdf5_compress_args]: [ObjectClassification.to_hdf5] raises an
    AttributeError and writes nothing into the group, and [Object.to_hdf5]
    into a group without members raises an AttributeError. *)
Theorem to_hdf5_needs_compress_args (kwargs : list (string * Settings.value))
    (oc : ObjectClassification.t) (o : Object.t) (group : h5py.Group) :
  ObjectClassification.to_hdf5
    (state (SettingsGetter.set kwargs (SettingsGetter.mk Settings.default))) oc group
  = (group, Raised AttributeError)
  /\ (h5py.members group = ∅ ->
      result (Object.to_hdf5
                (state (SettingsGetter.set kwargs (SettingsGetter.mk Settings.default)))
                o group)
      = Raised AttributeError).
Proof.
  split.
  - unfold ObjectClassification.to_hdf5. rewrite !hdf5_compress_args_undeclared. reflexivity.
  - apply to_hdf5_declared_settings.
Qed.






Lemma bind_Returned {S A B} (m : Exec S A) (k : A -> Exec S B) (s s' : S) (b : B) :
  bind m k s = (s', Returned b) ->
  exists a s1, m s = (s1, Returned a) /\ k a s1 = (s', Returned b).
Proof.
  unfold bind. destruct (m s) as [s1 [a|e]]; intros H; [|discriminate H].
  exists a, s1. split; [reflexivity | exact H].
Qed.

Lemma occurs_rpartition_last (sep : Ascii.ascii) (s : string) :
  occurs sep (rpartition_last sep s) = false.
Proof.
  induction s as [|c s IH]; [reflexivity|].
  cbn [rpartition_last]. destruct (occurs sep s) eqn:E; [exact IH|].
  destruct (Ascii.eqb c sep) eqn:Ec; [exact E|].
  cbn [occurs]. rewrite Ec. exact E.
Qed.

Lemma ObjectClassification_init_Returned `{PerceptionTypes}
    (val : list Z) (confidence : list float) (log log' : Log)
    (oc : ObjectClassification.t) :
  ObjectClassification.init val confidence log = (log', Returned oc) ->
  oc = ObjectClassification.mk val confidence
  /\ forallb ObjectClassification_member val = true
  /\ (len confidence =? 0) || ObjectClassification.all_between_0_and_1 confidence = true.
Proof.
  intros Hi.
  destruct (forallb ObjectClassification_member val) eqn:E.
  - rewrite (ObjectClassification_init_run _ _ _ E) in Hi.
    destruct ((len confidence =? 0) || ObjectClassification.all_between_0_and_1 confidence);
      [|discriminate Hi].
    injection Hi as _ <-. repeat split.
  - unfold ObjectClassification.init in Hi. rewrite E in Hi. discriminate Hi.
Qed.

(** X12.  What every object loaded by [Object.from_hdf5] satisfies, whatever
    the group holds.  Its [id] is what follows the last ["/"] of the name of
    the group and so contains no ["/"]; and when the load validates, the
    object is validly constructed: its validating constructor and that of
    its classification accept it as it is. *)
Theorem loaded_object_invariant `{PerceptionTypes}
    (group : h5py.Group) (validate : bool) (log log' : Log) (o : Object.t) :
  Object.from_hdf5 group validate log = (log', Returned o) ->
  Object.id o = rpartition_last "/" (h5py.name group)
  /\ occurs "/" (Object.id o) = false
  /\ (validate = true -> validly_constructed o).
Proof.
  intros Hload. unfold Object.from_hdf5 in Hload.
  do 22 (apply bind_Returned in Hload as (? & ? & _ & Hload); cbv beta in Hload).
  apply bind_Returned in Hload as (oc & s1 & Hoc & Hload). cbv beta in Hload.
  assert (Hid : Object.id o = rpartition_last "/" (h5py.name group)).
  { destruct validate.
    - unfold Object.init in Hload.
      destruct (_ && _); [|discriminate Hload]. injection Hload as _ <-. reflexivity.
    - injection Hload as _ <-. reflexivity. }
  split; [exact Hid|]. split; [rewrite Hid; apply occurs_rpartition_last|].
  intros ->. unfold Object.init in Hload.
  cbn [Object.tracking_point Object.movement_classification Object.meas_state] in Hload.
  match type of Hload with
  | (if ?c then _ else _) _ = _ => destruct c eqn:Ec; [|discriminate Hload]
  end.
  injection Hload as _ <-.
  apply bind_Returned in Hoc as (g & s2 & _ & Hoc).
  unfold ObjectClassification.from_hdf5 in Hoc.
  apply bind_Returned in Hoc as (codes & s3 & _ & Hoc). cbv beta in Hoc.
  apply bind_Returned in Hoc as (val & s4 & _ & Hoc). cbv beta in Hoc.
  apply bind_Returned in Hoc as (conf & s5 & _ & Hoc). cbv beta in Hoc.
  apply ObjectClassification_init_Returned in Hoc as (-> & Hval & Hrange).
  split.
  - unfold Object.init.
    cbn [Object.tracking_point Object.movement_classification Object.meas_state].
    rewrite Ec. reflexivity.
  - cbn [Object.object_classification ObjectClassification.val
         ObjectClassification.confidence].
    rewrite (ObjectClassification_init_run _ _ _ Hval), Hrange. reflexivity.
Qed.

Lemma loaded_object_invariant_witness :
  Object.from_hdf5
    (state (Object.to_hdf5 sample_settings sample_object sample_group)) true []
  = ([], Returned (Object.set_id "object7" sample_object))
  /\ occurs "/" (Object.id (Object.set_id "object7" sample_object)) = false
  /\ validly_constructed (Object.set_id "object7" sample_object).
Proof.
  assert (H : Object.from_hdf5
                (state (Object.to_hdf5 sample_settings sample_object sample_group)) true []
              = ([], Returned (Object.set_id "object7" sample_object)))
    by (vm_compute; reflexivity).
  destruct (loaded_object_invariant _ _ _ _ _ H) as (_ & H2 & H3).
  split; [exact H|]. split; [exact H2 | exact (H3 eq_refl)].
Defined.






